(** * TanStackTableEditModal: a model of the tax-record table component

    The repository is one React component,
    [src/my-app/src/components/TanStackTableEditModal.tsx].  This file embeds
    its local state, its mount-time loader, its event handlers and the pure
    helpers they call, and proves properties of them.

    Conventions of the embedding:
    - an optional field of a JavaScript object ([name?: string]) is an
      [option string]; [None] stands for both [undefined] and [null], which
      the operators used by the component ([??], [?.], [||], [!]) treat alike;
    - the object [countryFilter : Record<string, boolean>] is a
      [gmap string bool] of its own properties; a read of a key it does not
      own falls through to [Object.prototype], and an assignment to
      ["__proto__"] creates no property (module [JsObject]);
    - a body that [json()] parses is an array of records of the declared
      type ([Country], [TaxRecord]); other bodies are not modelled;
    - an [async] function is a computation in the monad [Act]: it reads and
      writes the component state, records the requests it sends, and either
      completes normally or throws;
    - what the network answers is an argument of the computation that
      awaits it. *)

From Stdlib Require Import ZArith Ascii String DecimalString.
From stdpp Require Import base option list gmap strings.

Local Open Scope Z_scope.

(** ** JavaScript strings *)

Module JsString.

(** [String.prototype.toLowerCase] on the ASCII letters; every other
    character is kept (the Unicode case mappings outside ASCII are not
    modelled, and none of them produces an ASCII letter of "harsh"). *)
Definition lower_ascii (c : ascii) : ascii :=
  let n := nat_of_ascii c in
  if ((65 <=? n) && (n <=? 90))%nat then ascii_of_nat (n + 32) else c.

Fixpoint toLowerCase (s : string) : string :=
  match s with
  | EmptyString => EmptyString
  | String c s' => String (lower_ascii c) (toLowerCase s')
  end.

(** [s.startsWith(p)]. *)
Fixpoint startsWith (s p : string) : bool :=
  match p, s with
  | EmptyString, _ => true
  | String _ _, EmptyString => false
  | String a p', String b s' => bool_decide (a = b) && startsWith s' p'
  end.

(** [s.includes(sub)]: [sub] occurs in [s] at some position. *)
Fixpoint includes (s sub : string) : bool :=
  startsWith s sub ||
  match s with
  | EmptyString => false
  | String _ s' => includes s' sub
  end.

(** [o || d] on an optional string: [undefined], [null] and the empty
    string are falsy. *)
Definition or_else (o : option string) (d : string) : string :=
  match o with
  | Some (String c s) => String c s
  | _ => d
  end.

(** [String.prototype.toUpperCase], likewise on the ASCII letters. *)
Definition upper_ascii (c : ascii) : ascii :=
  let n := nat_of_ascii c in
  if ((97 <=? n) && (n <=? 122))%nat then ascii_of_nat (n - 32) else c.

Fixpoint toUpperCase (s : string) : string :=
  match s with
  | EmptyString => EmptyString
  | String c s' => String (upper_ascii c) (toUpperCase s')
  end.

(** The strings on which the two case mappings above are those of the
    language: every character is an ASCII one. *)
Fixpoint isAscii (s : string) : bool :=
  match s with
  | EmptyString => true
  | String c s' => (nat_of_ascii c <? 128)%nat && isAscii s'
  end.

End JsString.

(** ** The host's [Date]

    [Date.parse] and [Date.prototype.toLocaleDateString] belong to the
    JavaScript host, not to the component.  What the language standard fixes
    is modelled here; what it leaves to the host (the local time zone, and
    the parsing of strings outside the forms below) is a field of [Host]. *)

Module JsDate.

Record Host := {
  (** offset of local time from UTC, in minutes, east positive, in effect
      at the instant [t] (milliseconds since the epoch) *)
  localOffset : Z → Z;
  (** [Date.parse] on every string that is not one of the UTC forms read
      by [parseUtc]; [None] is NaN *)
  parseOther : string → option Z
}.

Definition msPerDay : Z := 86400000.

Definition isLeap (y : Z) : bool :=
  ((y mod 4 =? 0) && negb (y mod 100 =? 0)) || (y mod 400 =? 0).

Definition daysInMonth (y m : Z) : Z :=
  if m =? 2 then (if isLeap y then 29 else 28)
  else if (m =? 4) || (m =? 6) || (m =? 9) || (m =? 11) then 30
  else 31.

(** Day number (days since 1970-01-01) of a proleptic Gregorian date. *)
Definition daysFromCivil (y m d : Z) : Z :=
  let y' := if m <=? 2 then y - 1 else y in
  let era := y' / 400 in
  let yoe := y' - era * 400 in
  let mp := (m + 9) mod 12 in
  let doy := (153 * mp + 2) / 5 + d - 1 in
  let doe := yoe * 365 + yoe / 4 - yoe / 100 + doy in
  era * 146097 + doe - 719468.

(** Proleptic Gregorian date (year, month, day) of a day number. *)
Definition civilFromDays (z : Z) : Z * Z * Z :=
  let z' := z + 719468 in
  let era := z' / 146097 in
  let doe := z' - era * 146097 in
  let yoe := (doe - doe / 1460 + doe / 36524 - doe / 146096) / 365 in
  let doy := doe - (365 * yoe + yoe / 4 - yoe / 100) in
  let mp := (5 * doy + 2) / 153 in
  let d := doy - (153 * mp + 2) / 5 + 1 in
  let m := if mp <? 10 then mp + 3 else mp - 9 in
  let y := yoe + era * 400 in
  (if m <=? 2 then y + 1 else y, m, d).

Definition digit (c : ascii) : option Z :=
  let n := nat_of_ascii c in
  if ((48 <=? n) && (n <=? 57))%nat then Some (Z.of_nat n - 48) else None.

(** Reads exactly [n] decimal digits. *)
Fixpoint number (n : nat) (acc : Z) (s : string) : option (Z * string) :=
  match n, s with
  | O, _ => Some (acc, s)
  | S n', String c s' => d ← digit c; number n' (10 * acc + d) s'
  | S _, EmptyString => None
  end.

Definition expect (c : ascii) (s : string) : option string :=
  match s with
  | String c' s' => if decide (c = c') then Some s' else None
  | EmptyString => None
  end.

(** [HH:mm:ss] or [HH:mm:ss.sss], then [Z], then the end of the string;
    the result is the time within the day, in milliseconds. *)
Definition parseUtcTime (s : string) : option Z :=
  '(hh, s) ← number 2 0 s;
  s ← expect ":" s;
  '(mi, s) ← number 2 0 s;
  s ← expect ":" s;
  '(ss, s) ← number 2 0 s;
  '(ms, s) ← match s with
             | String "." s' => number 3 0 s'
             | _ => Some (0, s)
             end;
  s ← expect "Z" s;
  if bool_decide (s = EmptyString) && (hh <=? 23) && (mi <=? 59) && (ss <=? 59)
  then Some (hh * 3600000 + mi * 60000 + ss * 1000 + ms)
  else None.

(** The forms of the standard's date-time string format that denote a UTC
    instant by themselves: [YYYY-MM-DD], [YYYY-MM-DDTHH:mm:ssZ] and
    [YYYY-MM-DDTHH:mm:ss.sssZ], with every field in range. *)
Definition parseUtc (s : string) : option Z :=
  '(y, s) ← number 4 0 s;
  s ← expect "-" s;
  '(m, s) ← number 2 0 s;
  s ← expect "-" s;
  '(d, s) ← number 2 0 s;
  if (1 <=? m) && (m <=? 12) && (1 <=? d) && (d <=? daysInMonth y m) then
    let day := daysFromCivil y m d in
    match s with
    | EmptyString => Some (day * msPerDay)
    | String "T" s' => t ← parseUtcTime s'; Some (day * msPerDay + t)
    | _ => None
    end
  else None.

(** [Date.parse(s)]; [None] is NaN. *)
Definition parse (h : Host) (s : string) : option Z :=
  match parseUtc s with
  | Some t => Some t
  | None => parseOther h s
  end.

Definition monthShort (m : Z) : string :=
  match m with
  | 1 => "Jan" | 2 => "Feb" | 3 => "Mar" | 4 => "Apr"
  | 5 => "May" | 6 => "Jun" | 7 => "Jul" | 8 => "Aug"
  | 9 => "Sep" | 10 => "Oct" | 11 => "Nov" | _ => "Dec"
  end.

Definition decimal (n : Z) : string :=
  NilZero.string_of_uint (N.to_uint (Z.to_N n)).

Definition twoDigit (n : Z) : string :=
  if n <? 10 then String "0" (decimal n) else decimal n.

(** [new Date(t).toLocaleDateString("en-US",
      { month: "short", day: "2-digit", year: "numeric" })]:
    the calendar date of [t] in the host's local time zone, as
    [Mon DD, YYYY].  Years before 1 are shown as years of the era. *)
Definition toLocaleDateString (h : Host) (t : Z) : string :=
  let local := t + localOffset h t * 60000 in
  let '(y, m, d) := civilFromDays (local / msPerDay) in
  let yearOfEra := if 1 <=? y then y else 1 - y in
  monthShort m +:+ " " +:+ twoDigit d +:+ ", " +:+ decimal yearOfEra.

(** A host at a fixed offset from UTC that parses nothing but the UTC
    forms. *)
Definition fixedOffset (minutes : Z) : Host :=
  {| localOffset := λ _, minutes; parseOther := λ _, None |}.

End JsDate.

(** ** Data model *)

Module TaxRecord.
Record t := {
  id : string;
  name : option string;
  gender : option string;
  country : option string;
  requestDate : option string;
  createdAt : option string
}.

#[global] Instance eq_dec : EqDecision t.
Proof. solve_decision. Defined.

Definition with_gender (g : option string) (r : t) : t :=
  {| id := id r; name := name r; gender := g; country := country r;
     requestDate := requestDate r; createdAt := createdAt r |}.

Definition with_requestDate (d : option string) (r : t) : t :=
  {| id := id r; name := name r; gender := gender r; country := country r;
     requestDate := d; createdAt := createdAt r |}.

(** [{ ...r, name: n, country: c }] *)
Definition with_name_country (n c : string) (r : t) : t :=
  {| id := id r; name := Some n; gender := gender r; country := Some c;
     requestDate := requestDate r; createdAt := createdAt r |}.
End TaxRecord.

Module Country.
Record t := { name : string }.

#[global] Instance eq_dec : EqDecision t.
Proof. solve_decision. Defined.
End Country.

Module Form.
Record t := { name : string; country : string }.
End Form.

(** [a ?? b] *)
Definition nullish {A} (a b : option A) : option A :=
  match a with
  | Some x => Some x
  | None => b
  end.

(** [l.slice(start)]: a negative [start] counts from the end. *)
Definition slice {A} (start : Z) (l : list A) : list A :=
  let len := Z.of_nat (length l) in
  let k := if start <? 0 then Z.max (len + start) 0 else Z.min start len in
  drop (Z.to_nat k) l.

(** ** Plain objects used as maps *)

Module JsObject.

(** The property names of [Object.prototype]; each holds a function, or,
    for ["__proto__"], yields the prototype itself: all truthy. *)
Definition prototypeKeys : list string :=
  [ "constructor"; "__defineGetter__"; "__defineSetter__"; "hasOwnProperty";
    "__lookupGetter__"; "__lookupSetter__"; "isPrototypeOf";
    "propertyIsEnumerable"; "toString"; "valueOf"; "__proto__";
    "toLocaleString" ].

(** Truthiness of [m[k]]: the own property when there is one, otherwise
    what the prototype has under that name, otherwise [undefined]. *)
Definition truthyAt (m : gmap string bool) (k : string) : bool :=
  match m !! k with
  | Some v => v
  | None => bool_decide (k ∈ prototypeKeys)
  end.

(** [m[k] = v] for a boolean [v]: an own property is overwritten; where
    there is none, one is created, except under ["__proto__"], whose
    inherited setter ignores a value that is not an object. *)
Definition assign (m : gmap string bool) (k : string) (v : bool) : gmap string bool :=
  if bool_decide (k = "__proto__" ∧ m !! k = None) then m else <[k := v]> m.

(** [{ ...m, [k]: v }]: the computed key defines an own property, under
    every name. *)
Definition spreadWith (m : gmap string bool) (k : string) (v : bool) : gmap string bool :=
  <[k := v]> m.

End JsObject.

(** ** Component state: one field per [useState] *)

Record State := {
  data : list TaxRecord.t;
  countries : list Country.t;
  loading : bool;
  editing : option TaxRecord.t;
  form : Form.t;
  saving : bool;
  filterOpen : bool;
  countryFilter : gmap string bool;
  searchCountry : string;
  modalCountryOpen : bool
}.

Definition initialState : State :=
  {| data := []; countries := []; loading := true; editing := None;
     form := {| Form.name := ""; Form.country := "" |}; saving := false;
     filterOpen := false; countryFilter := ∅; searchCountry := "";
     modalCountryOpen := false |}.

(** The state after a setter has run.  Where the component always calls a
    setter with a value the argument is the value; where it also calls it
    with an updater function the argument is the updater ([λ _, v] for a
    value). *)
Definition upd_data (f : list TaxRecord.t → list TaxRecord.t) (s : State) : State :=
  {| data := f (data s); countries := countries s; loading := loading s;
     editing := editing s; form := form s; saving := saving s;
     filterOpen := filterOpen s; countryFilter := countryFilter s;
     searchCountry := searchCountry s;
     modalCountryOpen := modalCountryOpen s |}.

Definition upd_countries (v : list Country.t) (s : State) : State :=
  {| data := data s; countries := v; loading := loading s;
     editing := editing s; form := form s; saving := saving s;
     filterOpen := filterOpen s; countryFilter := countryFilter s;
     searchCountry := searchCountry s;
     modalCountryOpen := modalCountryOpen s |}.

Definition upd_loading (v : bool) (s : State) : State :=
  {| data := data s; countries := countries s; loading := v;
     editing := editing s; form := form s; saving := saving s;
     filterOpen := filterOpen s; countryFilter := countryFilter s;
     searchCountry := searchCountry s;
     modalCountryOpen := modalCountryOpen s |}.

Definition upd_editing (v : option TaxRecord.t) (s : State) : State :=
  {| data := data s; countries := countries s; loading := loading s;
     editing := v; form := form s; saving := saving s;
     filterOpen := filterOpen s; countryFilter := countryFilter s;
     searchCountry := searchCountry s;
     modalCountryOpen := modalCountryOpen s |}.

Definition upd_form (v : Form.t) (s : State) : State :=
  {| data := data s; countries := countries s; loading := loading s;
     editing := editing s; form := v; saving := saving s;
     filterOpen := filterOpen s; countryFilter := countryFilter s;
     searchCountry := searchCountry s;
     modalCountryOpen := modalCountryOpen s |}.

Definition upd_saving (v : bool) (s : State) : State :=
  {| data := data s; countries := countries s; loading := loading s;
     editing := editing s; form := form s; saving := v;
     filterOpen := filterOpen s; countryFilter := countryFilter s;
     searchCountry := searchCountry s;
     modalCountryOpen := modalCountryOpen s |}.

Definition upd_filterOpen (f : bool → bool) (s : State) : State :=
  {| data := data s; countries := countries s; loading := loading s;
     editing := editing s; form := form s; saving := saving s;
     filterOpen := f (filterOpen s); countryFilter := countryFilter s;
     searchCountry := searchCountry s;
     modalCountryOpen := modalCountryOpen s |}.

Definition upd_countryFilter (f : gmap string bool → gmap string bool) (s : State) : State :=
  {| data := data s; countries := countries s; loading := loading s;
     editing := editing s; form := form s; saving := saving s;
     filterOpen := filterOpen s; countryFilter := f (countryFilter s);
     searchCountry := searchCountry s;
     modalCountryOpen := modalCountryOpen s |}.

Definition upd_searchCountry (v : string) (s : State) : State :=
  {| data := data s; countries := countries s; loading := loading s;
     editing := editing s; form := form s; saving := saving s;
     filterOpen := filterOpen s; countryFilter := countryFilter s;
     searchCountry := v; modalCountryOpen := modalCountryOpen s |}.

Definition upd_modalCountryOpen (f : bool → bool) (s : State) : State :=
  {| data := data s; countries := countries s; loading := loading s;
     editing := editing s; form := form s; saving := saving s;
     filterOpen := filterOpen s; countryFilter := countryFilter s;
     searchCountry := searchCountry s;
     modalCountryOpen := f (modalCountryOpen s) |}.

(** ** Effects: state, requests sent, exceptions *)

Inductive Request :=
| Get (url : string)
| Put (url : string) (body : TaxRecord.t).

(** What a promise settles to. *)
Inductive Outcome (A : Type) :=
| Resolved (a : A)
| Rejected.
Arguments Resolved {A} a.
Arguments Rejected {A}.

(** The response of a [fetch]: all the component does with it is to await
    [json()]. *)
Record Response (A : Type) := { json : Outcome A }.
Arguments json {A} r.

(** The component state together with the requests sent so far, oldest
    first. *)
Record World := { ui : State; sent : list Request }.

Inductive Completion (A : Type) :=
| Normal (a : A)
| Throw.
Arguments Normal {A} a.
Arguments Throw {A}.

Definition Act (A : Type) : Type := World → Completion A * World.

#[global] Instance act_ret : MRet Act := λ A a w, (Normal a, w).

#[global] Instance act_bind : MBind Act := λ A B k m w,
  match m w with
  | (Normal a, w') => k a w'
  | (Throw, w') => (Throw, w')
  end.

(** [try { body } finally { fin }]: [fin] runs however [body] completes, and
    the completion of [body] is kept unless [fin] throws. *)
Definition tryFinally {A} (body : Act A) (fin : Act unit) : Act A := λ w,
  let '(r, w') := body w in
  match fin w' with
  | (Normal _, w'') => (r, w'')
  | (Throw, w'') => (Throw, w'')
  end.

Definition getState : Act State := λ w, (Normal (ui w), w).

Definition setState (f : State → State) : Act unit := λ w,
  (Normal (), {| ui := f (ui w); sent := sent w |}).

(** [await p] *)
Definition await {A} (p : Outcome A) : Act A := λ w,
  match p with
  | Resolved a => (Normal a, w)
  | Rejected => (Throw, w)
  end.

(** [await fetch(...)]: the request goes out, then the promise settles. *)
Definition fetch {A} (req : Request) (p : Outcome (Response A)) : Act (Response A) := λ w,
  await p {| ui := ui w; sent := sent w ++ [req] |}.

Definition setData f : Act unit := setState (upd_data f).
Definition setCountries v : Act unit := setState (upd_countries v).
Definition setLoading v : Act unit := setState (upd_loading v).
Definition setEditing v : Act unit := setState (upd_editing v).
Definition setForm v : Act unit := setState (upd_form v).
Definition setSaving v : Act unit := setState (upd_saving v).
Definition setFilterOpen f : Act unit := setState (upd_filterOpen f).
Definition setCountryFilter f : Act unit := setState (upd_countryFilter f).
Definition setSearchCountry v : Act unit := setState (upd_searchCountry v).
Definition setModalCountryOpen f : Act unit := setState (upd_modalCountryOpen f).

(** ** The component *)

Definition TAXES_API : string := "https://685013d7e7c42cfd17974a33.mockapi.io/taxes".
Definition COUNTRIES_API : string := "https://685013d7e7c42cfd17974a33.mockapi.io/countries".

Section Component.

Variable host : JsDate.Host.

Definition formatDate (date : option string) : string :=
  match date with
  | None | Some EmptyString => ""
  | Some date =>
      match JsDate.parse host date with
      | None => date
      | Some parsed => JsDate.toLocaleDateString host parsed
      end
  end.

(** [{ ...t, requestDate: formatDate(t.requestDate ?? t.createdAt) }] *)
Definition normalize (t : TaxRecord.t) : TaxRecord.t :=
  TaxRecord.with_requestDate
    (Some (formatDate (nullish (TaxRecord.requestDate t) (TaxRecord.createdAt t)))) t.

(** [if (normalized[0]?.name?.toLowerCase() === "harsh")
       normalized[0].gender = "Female";] *)
Definition patchFirst (normalized : list TaxRecord.t) : list TaxRecord.t :=
  match normalized !! 0%nat with
  | Some first =>
      match TaxRecord.name first with
      | Some n =>
          if bool_decide (JsString.toLowerCase n = "harsh")
          then <[0%nat := TaxRecord.with_gender (Some "Female") first]> normalized
          else normalized
      | None => normalized
      end
  | None => normalized
  end.

(** The body of the asynchronous function called by the mount effect. *)
Definition loader (countriesNet : Outcome (Response (list Country.t)))
    (taxesNet : Outcome (Response (list TaxRecord.t))) : Act unit :=
  tryFinally
    (countriesResp ← fetch (Get COUNTRIES_API) countriesNet;
     ctrs ← await (json countriesResp);
     setCountries ctrs;;
     let map := foldl (λ m c, JsObject.assign m (Country.name c) false) ∅ ctrs in
     setCountryFilter (λ _, map);;
     taxesResp ← fetch (Get TAXES_API) taxesNet;
     taxesRaw ← await (json taxesResp);
     let normalized := normalize <$> slice (-7) taxesRaw in
     let normalized := patchFirst normalized in
     setData (λ _, normalized))
    (setLoading false).

(** The mount effect calls the asynchronous function and drops its
    promise: a rejection reaches nobody. *)
Definition mountEffect countriesNet taxesNet (w : World) : World :=
  snd (loader countriesNet taxesNet w).

Definition filteredData (s : State) : list TaxRecord.t :=
  let activeFilters :=
    fst <$> filter (λ e, snd e = true) (map_to_list (countryFilter s)) in
  if bool_decide (length activeFilters = 0%nat) then data s
  else filter (λ d, JsString.or_else (TaxRecord.country d) "" ∈ activeFilters) (data s).

Definition openEdit (row : TaxRecord.t) : Act unit :=
  setEditing (Some row);;
  setForm {| Form.name := default "" (TaxRecord.name row);
             Form.country := default "" (TaxRecord.country row) |}.

Definition closeModal : Act unit :=
  setEditing None;;
  setModalCountryOpen (λ _, false).

(** [editing] and [form] are the values of the render in which the
    handler was created, that is, of the state when it is called. *)
Definition handleSave (net : Outcome (Response TaxRecord.t)) : Act unit :=
  s ← getState;
  match editing s with
  | None => mret ()
  | Some editing =>
      setSaving true;;
      let payload :=
        TaxRecord.with_name_country (Form.name (form s)) (Form.country (form s)) editing in
      res ← fetch (Put (TAXES_API +:+ "/" +:+ TaxRecord.id editing) payload) net;
      updated ← await (json res);
      let updated :=
        TaxRecord.with_requestDate
          (Some (formatDate (nullish (TaxRecord.requestDate updated)
                                     (TaxRecord.createdAt updated)))) updated in
      setData (λ s, (λ x, if bool_decide (TaxRecord.id x = TaxRecord.id updated)
                          then updated else x) <$> s);;
      setSaving false;;
      closeModal
  end.

(** The options listed in the column's filter popover. *)
Definition filterListCountries (s : State) : list Country.t :=
  filter (λ c, JsString.includes (JsString.toLowerCase (Country.name c))
                                 (JsString.toLowerCase (searchCountry s)) = true)
         (countries s).

(** The options listed in the modal's country dropdown. *)
Definition dropdownListCountries (s : State) : list Country.t :=
  filter (λ c, JsString.includes (JsString.toLowerCase (Country.name c))
                                 (JsString.toLowerCase (searchCountry s)) = true)
         (countries s).

(** What the table card shows. *)
Inductive TableCard :=
| LoadingBanner
| Table (rows : list TaxRecord.t).

Definition tableCard (s : State) : TableCard :=
  if loading s then LoadingBanner else Table (filteredData s).

(** ** User events, one per [onClick] / [onChange] of the markup *)

Inductive Event :=
| FilterBtnClick
| FilterSearchInput (value : string)
| FilterCheckboxChange (c : Country.t)
| EditBtnClick (row : TaxRecord.t)
| OverlayClick
| ModalCloseClick
| CancelBtnClick
| NameInput (value : string)
| DropdownBtnClick
| DropdownSearchInput (value : string)
| RadioChange (c : Country.t)
| SaveBtnClick (net : Outcome (Response TaxRecord.t)).

Definition handle (ev : Event) : Act unit :=
  match ev with
  | FilterBtnClick => setFilterOpen negb
  | FilterSearchInput value => setSearchCountry value
  | FilterCheckboxChange c =>
      setCountryFilter
        (λ s, JsObject.spreadWith s (Country.name c)
                (negb (JsObject.truthyAt s (Country.name c))))
  | EditBtnClick row => openEdit row
  | OverlayClick | ModalCloseClick | CancelBtnClick => closeModal
  | NameInput value =>
      s ← getState;
      setForm {| Form.name := value; Form.country := Form.country (form s) |}
  | DropdownBtnClick => setModalCountryOpen negb
  | DropdownSearchInput value => setSearchCountry value
  | RadioChange c =>
      s ← getState;
      setForm {| Form.name := Form.name (form s); Form.country := Country.name c |};;
      setModalCountryOpen (λ _, false)
  | SaveBtnClick net => handleSave net
  end.

(** Whether the control of the event is on the page (and not disabled) in
    state [s]. *)
Definition available (ev : Event) (s : State) : bool :=
  match ev with
  | FilterBtnClick => negb (loading s)
  | FilterSearchInput _ => negb (loading s) && filterOpen s
  | FilterCheckboxChange c =>
      negb (loading s) && filterOpen s && bool_decide (c ∈ filterListCountries s)
  | EditBtnClick row => negb (loading s) && bool_decide (row ∈ filteredData s)
  | OverlayClick | ModalCloseClick | CancelBtnClick | NameInput _ | DropdownBtnClick =>
      bool_decide (is_Some (editing s))
  | DropdownSearchInput _ => bool_decide (is_Some (editing s)) && modalCountryOpen s
  | RadioChange c =>
      bool_decide (is_Some (editing s)) && modalCountryOpen s
      && bool_decide (c ∈ dropdownListCountries s)
      && bool_decide (Form.country (form s) ≠ Country.name c)
  | SaveBtnClick _ => bool_decide (is_Some (editing s)) && negb (saving s)
  end.

(** An event handler's promise, if any, is dropped by the caller. *)
Definition dispatch (ev : Event) (w : World) : World :=
  if available ev (ui w) then snd (handle ev w) else w.

Definition run (evs : list Event) (w : World) : World :=
  foldl (λ w ev, dispatch ev w) w evs.

End Component.

Definition initialWorld : World := {| ui := initialState; sent := [] |}.

(** ** What a row and the controls show *)

(** The Gender cell: a dash, or a pill with its class and its text. *)
Inductive GenderCell :=
| GenderDash
| GenderPill (className text : string).

(** [if (!g) return "-";
     const formatted = g.charAt(0).toUpperCase() + g.slice(1).toLowerCase();
     <span className={`gender-pill ${formatted.toLowerCase()}`}>{formatted}</span>] *)
Definition genderCell (r : TaxRecord.t) : GenderCell :=
  match TaxRecord.gender r with
  | Some (String c rest) =>
      let formatted :=
        JsString.toUpperCase (String c EmptyString) +:+ JsString.toLowerCase rest in
      GenderPill ("gender-pill " +:+ JsString.toLowerCase formatted) formatted
  | _ => GenderDash
  end.

(** The Request date cell: [info.getValue() || "-"]. *)
Definition requestDateCell (r : TaxRecord.t) : string :=
  JsString.or_else (TaxRecord.requestDate r) "-".

(** [checked={!!countryFilter[c.name]}] *)
Definition checkboxChecked (s : State) (c : Country.t) : bool :=
  JsObject.truthyAt (countryFilter s) (Country.name c).

(** Kinds of events. *)
Definition isSave (ev : Event) : bool :=
  match ev with SaveBtnClick _ => true | _ => false end.

Definition isSearchInput (ev : Event) : bool :=
  match ev with FilterSearchInput _ | DropdownSearchInput _ => true | _ => false end.

Definition isCheckboxChange (ev : Event) : bool :=
  match ev with FilterCheckboxChange _ => true | _ => false end.

(** A PUT to the taxes endpoint of the id of its own body. *)
Definition putOfOwnId (req : Request) : Prop :=
  ∃ body, req = Put (TAXES_API +:+ "/" +:+ TaxRecord.id body) body.

(** A fetch that succeeds and whose body parses to [a]. *)
Definition answered {A} (a : A) : Outcome (Response A) :=
  Resolved {| json := Resolved a |}.

(** ** Vocabulary of the specification *)

(** The filter selection: the names whose checkbox is checked
    ([checked={!!countryFilter[c.name]}]). *)
Definition checkedNames (s : State) : gset string :=
  dom (filter (λ kv, kv.2 = true) (countryFilter s)).

(** The last [n] entries of a list. *)
Definition lastEntries {A} (n : nat) (l : list A) : list A :=
  drop (length l - n) l.

(** The countries whose lowercased name contains the lowercased [text]. *)
Definition countriesMatching (text : string) (cs : list Country.t) : list Country.t :=
  filter (λ c, JsString.includes (JsString.toLowerCase (Country.name c))
                                 (JsString.toLowerCase text) = true) cs.

(** The load fails at the countries fetch, at the parse of its body, at the
    taxes fetch, or at the parse of its body. *)
Definition loadFails (countriesNet : Outcome (Response (list Country.t)))
    (taxesNet : Outcome (Response (list TaxRecord.t))) : bool :=
  match countriesNet with
  | Rejected => true
  | Resolved countriesResp =>
      match json countriesResp with
      | Rejected => true
      | Resolved _ =>
          match taxesNet with
          | Rejected => true
          | Resolved taxesResp =>
              match json taxesResp with
              | Rejected => true
              | Resolved _ => false
              end
          end
      end
  end.

(** The PUT request or the parse of its response fails. *)
Definition saveFails (net : Outcome (Response TaxRecord.t)) : bool :=
  match net with
  | Rejected => true
  | Resolved res =>
      match json res with
      | Rejected => true
      | Resolved _ => false
      end
  end.

(** Whether a record's name lowercases to "harsh". *)
Definition isHarsh (t : TaxRecord.t) : bool :=
  bool_decide (JsString.toLowerCase <$> TaxRecord.name t = Some "harsh").

(* ================================================================== *)
(** * Properties *)

(** ** Sanity checks of the host model *)

Example toLowerCase_harsh : JsString.toLowerCase "HaRsH" = "harsh".
Proof. reflexivity. Qed.

Example includes_mid : JsString.includes "united states" "ted" = true.
Proof. reflexivity. Qed.

Example parse_2023_11_02 :
  JsDate.parse (JsDate.fixedOffset 0) "2023-11-02T00:00:00Z" = Some 1698883200000.
Proof. reflexivity. Qed.

Example parse_epoch : JsDate.parseUtc "1970-01-01" = Some 0.
Proof. reflexivity. Qed.

Example parse_bad_day : JsDate.parseUtc "2023-02-30" = None.
Proof. reflexivity. Qed.

Example civil_roundtrip_leap :
  JsDate.civilFromDays (JsDate.daysFromCivil 2024 2 29) = (2024, 2, 29).
Proof. reflexivity. Qed.

Example locale_utc :
  JsDate.toLocaleDateString (JsDate.fixedOffset 0) 1698883200000 = "Nov 02, 2023".
Proof. reflexivity. Qed.

(** ** The country filter *)

Lemma elem_of_checkedNames s c :
  c ∈ checkedNames s ↔ countryFilter s !! c = Some true.
Proof.
  unfold checkedNames. rewrite elem_of_dom. split.
  - intros [v Hv]. apply map_lookup_filter_Some in Hv as [Hv Ht].
    simpl in Ht. by subst.
  - intros H. exists true. by apply map_lookup_filter_Some.
Qed.


Lemma elem_of_activeFilters (m : gmap string bool) c :
  c ∈ (fst <$> filter (λ e, snd e = true) (map_to_list m)) ↔ m !! c = Some true.
Proof.
  rewrite list_elem_of_fmap. split.
  - intros [[k v] [-> H]]. apply list_elem_of_filter in H as [Hv H].
    simpl in *. subst. by apply elem_of_map_to_list in H.
  - intros H. exists (c, true). split; [done|].
    apply list_elem_of_filter. split; [done|]. by apply elem_of_map_to_list.
Qed.

Lemma activeFilters_empty s :
  length (fst <$> filter (λ e, snd e = true) (map_to_list (countryFilter s))) = 0%nat
  ↔ checkedNames s = ∅.
Proof.
  rewrite length_zero_iff_nil. split.
  - intros H. apply set_eq. intros c.
    rewrite elem_of_checkedNames, <- elem_of_activeFilters, H. set_solver.
  - intros H. apply elem_of_nil_inv. intros c.
    rewrite elem_of_activeFilters, <- elem_of_checkedNames, H. set_solver.
Qed.

Lemma filter_all {A} (P : A → Prop) `{!∀ x, Decision (P x)} (l : list A) :
  (∀ x, x ∈ l → P x) → filter P l = l.
Proof.
  induction l as [|a l IH]; intros Hall; [done|].
  rewrite filter_cons_True by (apply Hall; left).
  f_equal. apply IH. intros x Hx. apply Hall. by right.
Qed.

Lemma filteredData_eq s :
  filteredData s
  = filter (λ d, checkedNames s = ∅
                 ∨ JsString.or_else (TaxRecord.country d) "" ∈ checkedNames s)
           (data s).
Proof.
  unfold filteredData. case_bool_decide as Hlen.
  - apply activeFilters_empty in Hlen. symmetry. apply filter_all. auto.
  - apply list_filter_iff. intros d.
    rewrite activeFilters_empty in Hlen.
    rewrite elem_of_activeFilters, elem_of_checkedNames. tauto.
Qed.






(** ** The mount-time load *)

Lemma slice_last_seven {A} (l : list A) : slice (-7) l = lastEntries 7 l.
Proof.
  unfold slice, lastEntries. simpl. f_equal. lia.
Qed.

Lemma loader_answered host cs raw w :
  loader host (answered cs) (answered raw) w
  = (Normal (),
     {| ui := upd_loading false
                (upd_data (λ _, patchFirst (normalize host <$> slice (-7) raw))
                   (upd_countryFilter
                      (λ _, foldl (λ m c, JsObject.assign m (Country.name c) false) ∅ cs)
                      (upd_countries cs (ui w))));
        sent := (sent w ++ [Get COUNTRIES_API]) ++ [Get TAXES_API] |}).
Proof. reflexivity. Qed.

Lemma patchFirst_length l : length (patchFirst l) = length l.
Proof.
  unfold patchFirst. destruct (l !! 0%nat) as [first|]; [|done].
  destruct (TaxRecord.name first); [|done].
  case_bool_decide; [|done]. apply length_insert.
Qed.

Lemma patchFirst_head l :
  patchFirst l !! 0%nat
  = (λ first, if isHarsh first then TaxRecord.with_gender (Some "Female") first
              else first) <$> l !! 0%nat.
Proof.
  unfold patchFirst, isHarsh. destruct l as [|first l]; [done|]. simpl.
  destruct (TaxRecord.name first) as [n|]; simpl.
  - case_bool_decide as Hn; case_bool_decide as Hn'; try done.
    + exfalso. apply Hn'. by rewrite Hn.
    + exfalso. apply Hn. by injection Hn'.
  - done.
Qed.

Lemma patchFirst_tail l i : patchFirst l !! S i = l !! S i.
Proof.
  unfold patchFirst. destruct (l !! 0%nat) as [first|]; [|done].
  destruct (TaxRecord.name first); [|done].
  case_bool_decide; [|done]. by apply list_lookup_insert_ne.
Qed.

Lemma isHarsh_normalize host t : isHarsh (normalize host t) = isHarsh t.
Proof. reflexivity. Qed.

Lemma lastEntries_lookup {A} (l : list A) n i :
  lastEntries n l !! i = l !! (length l - n + i)%nat.
Proof. unfold lastEntries. apply lookup_drop. Qed.

Lemma lastEntries_length {A} (l : list A) n :
  length (lastEntries n l) = Nat.min n (length l).
Proof. unfold lastEntries. rewrite length_drop. lia. Qed.

Lemma fresh_filter_unchecked (cs : list Country.t) (m : gmap string bool) k :
  m !! k ≠ Some true →
  foldl (λ m c, JsObject.assign m (Country.name c) false) m cs !! k ≠ Some true.
Proof.
  revert m. induction cs as [|c cs IH]; intros m Hm; [done|].
  simpl. apply IH. unfold JsObject.assign. case_bool_decide; [done|].
  rewrite lookup_insert. by case_decide.
Qed.

Lemma loaded_filter_inactive host cs raw w :
  checkedNames (ui (mountEffect host (answered cs) (answered raw) w)) = ∅.
Proof.
  apply set_eq. intros k. rewrite elem_of_checkedNames. split.
  - intros Hk. exfalso. revert Hk. unfold mountEffect. rewrite loader_answered.
    simpl. by apply fresh_filter_unchecked.
  - intros Hk. by apply not_elem_of_empty in Hk.
Qed.

(** C2 (as amended).  After a load whose two fetches succeed, the stored
    list has the last 7 entries of the fetched array (all of them when there
    are fewer), in order; each is the source entry with [requestDate]
    replaced by the formatted [requestDate] when present and the formatted
    [createdAt] otherwise, and -- the one other change -- the first stored
    entry has its gender set to "Female" when its name lowercases to
    "harsh".  The table shows that list. *)
Theorem loader_stores_last_seven host cs raw w :
  let loaded := ui (mountEffect host (answered cs) (answered raw) w) in
  length (data loaded) = Nat.min 7 (length raw)
  ∧ (∀ i : nat,
      data loaded !! i
      = (λ t, {| TaxRecord.id := TaxRecord.id t;
                 TaxRecord.name := TaxRecord.name t;
                 TaxRecord.gender :=
                   if (i =? 0)%nat && isHarsh t then Some "Female"
                   else TaxRecord.gender t;
                 TaxRecord.country := TaxRecord.country t;
                 TaxRecord.requestDate :=
                   Some (formatDate host
                           match TaxRecord.requestDate t with
                           | Some d => Some d
                           | None => TaxRecord.createdAt t
                           end);
                 TaxRecord.createdAt := TaxRecord.createdAt t |})
        <$> raw !! (length raw - 7 + i)%nat)
  ∧ tableCard loaded = Table (data loaded).
Proof.
  intros loaded. split; [|split].
  - unfold loaded, mountEffect. rewrite loader_answered. simpl.
    by rewrite slice_last_seven, patchFirst_length, length_fmap, lastEntries_length.
  - unfold loaded, mountEffect. rewrite loader_answered. simpl.
    rewrite slice_last_seven. intros [|i].
    + rewrite patchFirst_head, list_lookup_fmap, lastEntries_lookup.
      destruct (raw !! _) as [t|]; [|done]. simpl.
      rewrite isHarsh_normalize. by destruct (isHarsh t).
    + rewrite patchFirst_tail, list_lookup_fmap, lastEntries_lookup.
      by destruct (raw !! _).
  - assert (Hl : loading loaded = false).
    { unfold loaded, mountEffect. by rewrite loader_answered. }
    unfold tableCard. rewrite Hl, filteredData_eq. f_equal.
    apply filter_all. intros d _. left. apply loaded_filter_inactive.
Qed.

(** C2 as stated fails: the stored list is not always the last entries with
    only their date replaced -- a first entry named "Harsh" is stored with
    another gender than the source has. *)
Lemma loader_not_only_dates :
  let raw := [ {| TaxRecord.id := "1"; TaxRecord.name := Some "Harsh";
                  TaxRecord.gender := Some "Male"; TaxRecord.country := Some "India";
                  TaxRecord.requestDate := None; TaxRecord.createdAt := None |} ] in
  let host := JsDate.fixedOffset 0 in
  data (ui (mountEffect host (answered []) (answered raw) initialWorld))
  ≠ normalize host <$> lastEntries 7 raw.
Proof. vm_compute. discriminate. Qed.

(** C4.  After a load whose two fetches succeed, the first stored record is
    the first normalized record with its gender set to "Female" when its
    name lowercases to "harsh" (whatever its gender was) and unchanged
    otherwise; at every other position the stored record is the normalized
    one. *)
Theorem loader_patches_only_first host cs raw w :
  let normalized := normalize host <$> slice (-7) raw in
  let stored := data (ui (mountEffect host (answered cs) (answered raw) w)) in
  stored !! 0%nat
  = (λ first,
       if bool_decide (JsString.toLowerCase <$> TaxRecord.name first = Some "harsh")
       then {| TaxRecord.id := TaxRecord.id first;
               TaxRecord.name := TaxRecord.name first;
               TaxRecord.gender := Some "Female";
               TaxRecord.country := TaxRecord.country first;
               TaxRecord.requestDate := TaxRecord.requestDate first;
               TaxRecord.createdAt := TaxRecord.createdAt first |}
       else first) <$> normalized !! 0%nat
  ∧ ∀ i : nat, stored !! S i = normalized !! S i.
Proof.
  unfold mountEffect. rewrite loader_answered. simpl. split.
  - apply patchFirst_head.
  - intros i. apply patchFirst_tail.
Qed.

Example loader_patches_harsh :
  let raw := [ {| TaxRecord.id := "1"; TaxRecord.name := Some "HARSH";
                  TaxRecord.gender := Some "Male"; TaxRecord.country := None;
                  TaxRecord.requestDate := None; TaxRecord.createdAt := None |};
               {| TaxRecord.id := "2"; TaxRecord.name := Some "harsh";
                  TaxRecord.gender := Some "Male"; TaxRecord.country := None;
                  TaxRecord.requestDate := None; TaxRecord.createdAt := None |} ] in
  TaxRecord.gender <$>
    data (ui (mountEffect (JsDate.fixedOffset 0) (answered []) (answered raw) initialWorld))
  = [Some "Female"; Some "Male"].
Proof. reflexivity. Qed.

(** ** Date formatting *)

Lemma formatDate_unparsable host s :
  s ≠ "" → JsDate.parse host s = None → formatDate host (Some s) = s.
Proof.
  intros Hs Hp. unfold formatDate. destruct s as [|c s]; [done|]. by rewrite Hp.
Qed.

Lemma toLocaleDateString_2023_11_02 host :
  0 ≤ JsDate.localOffset host 1698883200000 < 1440 →
  JsDate.toLocaleDateString host 1698883200000 = "Nov 02, 2023".
Proof.
  intros Htz. unfold JsDate.toLocaleDateString, JsDate.msPerDay.
  set (off := JsDate.localOffset host 1698883200000) in *.
  replace ((1698883200000 + off * 60000) / 86400000) with 19663.
  - reflexivity.
  - apply Z.div_unique with (r := off * 60000); lia.
Qed.

Lemma formatDate_parsable host s t :
  s ≠ "" → JsDate.parse host s = Some t →
  formatDate host (Some s) = JsDate.toLocaleDateString host t.
Proof.
  intros Hs Hp. unfold formatDate. destruct s as [|c s]; [done|]. by rewrite Hp.
Qed.

(** C5 (as amended).  On a host whose local time is at or east of UTC at
    that instant, "2023-11-02T00:00:00Z" is formatted as "Nov 02, 2023"; on
    every host a non-empty string that parses as a date is shown as the
    local calendar day of its instant, a non-empty string that does not
    parse as a date is returned unchanged, and a missing or empty date
    gives the empty string. *)
Theorem formatDate_cases host :
  (0 ≤ JsDate.localOffset host 1698883200000 < 1440 →
   formatDate host (Some "2023-11-02T00:00:00Z") = "Nov 02, 2023")
  ∧ (∀ s t, s ≠ "" → JsDate.parse host s = Some t →
            formatDate host (Some s) = JsDate.toLocaleDateString host t)
  ∧ (∀ s, s ≠ "" → JsDate.parse host s = None → formatDate host (Some s) = s)
  ∧ formatDate host None = ""
  ∧ formatDate host (Some "") = "".
Proof.
  split; [|split; [|split; [|done]]].
  - intros Htz.
    change (formatDate host (Some "2023-11-02T00:00:00Z"))
      with (JsDate.toLocaleDateString host 1698883200000).
    by apply toLocaleDateString_2023_11_02.
  - intros s t. apply formatDate_parsable.
  - intros s. apply formatDate_unparsable.
Qed.

Lemma formatDate_cases_witness :
  let east := JsDate.fixedOffset 330 in
  let west := JsDate.fixedOffset (-240) in
  0 ≤ JsDate.localOffset east 1698883200000 < 1440
  ∧ formatDate east (Some "2023-11-02T00:00:00Z") = "Nov 02, 2023"
  ∧ formatDate west (Some "next week") = "next week"
  ∧ formatDate west None = ""
  ∧ formatDate west (Some "") = "".
Proof.
  intros east west.
  assert (Htz : 0 ≤ JsDate.localOffset east 1698883200000 < 1440) by (simpl; lia).
  destruct (formatDate_cases east) as (Hd & _).
  destruct (formatDate_cases west) as (_ & _ & Hs & Hn & He).
  split; [exact Htz|]. split; [exact (Hd Htz)|].
  split; [apply Hs; [discriminate|reflexivity]|]. split; [exact Hn|exact He].
Defined.

(** C5 as stated fails: the formatter shows the date in the host's local
    time zone, so west of UTC (here four hours, New York on that day) the
    same source date is rendered as the day before. *)
Lemma formatDate_west_of_utc :
  formatDate (JsDate.fixedOffset (-240)) (Some "2023-11-02T00:00:00Z") = "Nov 01, 2023"
  ∧ formatDate (JsDate.fixedOffset (-240)) (Some "2023-11-02T00:00:00Z") ≠ "Nov 02, 2023".
Proof. split; [reflexivity|vm_compute; discriminate]. Qed.

(** ** The shared search text *)

Lemma startsWith_spec s p :
  JsString.startsWith s p = true ↔ ∃ post, s = p +:+ post.
Proof.
  revert s. induction p as [|a p IH]; intros [|b s]; simpl.
  - split; [by exists ""|done].
  - split; [by exists (String b s)|done].
  - split; [done|]. by intros [post Hpost].
  - rewrite andb_true_iff, bool_decide_eq_true, IH. split.
    + intros [-> [post ->]]. by exists post.
    + intros [post Hpost]. injection Hpost as -> ->. eauto.
Qed.

Lemma includes_nil sub :
  JsString.includes "" sub = JsString.startsWith "" sub.
Proof. simpl. apply orb_false_r. Qed.

Lemma includes_cons c s sub :
  JsString.includes (String c s) sub
  = JsString.startsWith (String c s) sub || JsString.includes s sub.
Proof. reflexivity. Qed.

Lemma includes_spec s sub :
  JsString.includes s sub = true ↔ ∃ pre post, s = pre +:+ sub +:+ post.
Proof.
  induction s as [|c s IH].
  - rewrite includes_nil, startsWith_spec. split.
    + intros [post ->]. by exists "", post.
    + intros [pre [post H]]. destruct pre; [by exists post|done].
  - rewrite includes_cons, orb_true_iff, startsWith_spec, IH. split.
    + intros [[post ->] | [pre [post ->]]].
      * by exists "", post.
      * by exists (String c pre), post.
    + intros [[|c' pre] [post H]].
      * left. by exists post.
      * right. injection H as -> ->. by exists pre, post.
Qed.

Lemma elem_of_countriesMatching text cs c :
  c ∈ countriesMatching text cs
  ↔ c ∈ cs ∧ ∃ pre post,
      JsString.toLowerCase (Country.name c) = pre +:+ JsString.toLowerCase text +:+ post.
Proof.
  unfold countriesMatching. rewrite list_elem_of_filter, includes_spec. tauto.
Qed.

(** C9.  Both option lists are computed from the one [searchCountry] state:
    in every state they are the same list, the countries whose lowercased
    name contains the lowercased search text; and typing [value] in either
    search box makes both of them the countries matching [value]. *)
Theorem search_text_is_shared host w value :
  let typedInFilter := ui (snd (handle host (FilterSearchInput value) w)) in
  let typedInModal := ui (snd (handle host (DropdownSearchInput value) w)) in
  let matching := countriesMatching value (countries (ui w)) in
  (∀ s, filterListCountries s = countriesMatching (searchCountry s) (countries s)
        ∧ dropdownListCountries s = countriesMatching (searchCountry s) (countries s))
  ∧ (∀ c, c ∈ matching
          ↔ c ∈ countries (ui w)
            ∧ ∃ pre post, JsString.toLowerCase (Country.name c)
                          = pre +:+ JsString.toLowerCase value +:+ post)
  ∧ filterListCountries typedInFilter = matching
  ∧ dropdownListCountries typedInFilter = matching
  ∧ filterListCountries typedInModal = matching
  ∧ dropdownListCountries typedInModal = matching.
Proof.
  simpl. split; [done|]. split; [|done].
  intros c. apply elem_of_countriesMatching.
Qed.

Example search_narrows_both_lists :
  let cs := [ {| Country.name := "India" |}; {| Country.name := "Indonesia" |};
              {| Country.name := "France" |} ] in
  let w := {| ui := upd_countries cs initialState; sent := [] |} in
  let s := ui (snd (handle (JsDate.fixedOffset 0) (DropdownSearchInput "INDO") w)) in
  filterListCountries s = [ {| Country.name := "Indonesia" |} ]
  ∧ dropdownListCountries s = [ {| Country.name := "Indonesia" |} ].
Proof. split; reflexivity. Qed.

(** ** Closing the modal *)

(** C6.  The overlay, the close button and Cancel all run [closeModal],
    which sends nothing and changes nothing but the editing slot (cleared)
    and the country picker's open flag (cleared): the record list and every
    other piece of state are as before.  The draft is discarded in that no
    later action uses it: a save with the modal closed does nothing, and the
    next opening fills the form from the row alone. *)
Theorem closing_keeps_records host w :
  let closed := snd (closeModal w) in
  (handle host OverlayClick = closeModal
   ∧ handle host ModalCloseClick = closeModal
   ∧ handle host CancelBtnClick = closeModal)
  ∧ fst (closeModal w) = Normal ()
  ∧ sent closed = sent w
  ∧ data (ui closed) = data (ui w)
  ∧ editing (ui closed) = None
  ∧ modalCountryOpen (ui closed) = false
  ∧ (countries (ui closed) = countries (ui w)
     ∧ loading (ui closed) = loading (ui w)
     ∧ form (ui closed) = form (ui w)
     ∧ saving (ui closed) = saving (ui w)
     ∧ filterOpen (ui closed) = filterOpen (ui w)
     ∧ countryFilter (ui closed) = countryFilter (ui w)
     ∧ searchCountry (ui closed) = searchCountry (ui w))
  ∧ (∀ net, handleSave host net closed = (Normal (), closed))
  ∧ (∀ row, form (ui (snd (openEdit row closed)))
            = {| Form.name := default "" (TaxRecord.name row);
                 Form.country := default "" (TaxRecord.country row) |}).
Proof. simpl. repeat split. Qed.

(** ** A load that fails *)

(** There is no [catch]: a failure leaves the asynchronous function as a
    rejection after the [finally] block has run. *)
Lemma loader_rethrows host countriesNet taxesNet w :
  loadFails countriesNet taxesNet = true →
  fst (loader host countriesNet taxesNet w) = Throw.
Proof.
  destruct countriesNet as [[[cs|]]|]; try done.
  destruct taxesNet as [[[raw|]]|]; done.
Qed.

Lemma tableCard_empty s :
  loading s = false → data s = [] → tableCard s = Table [].
Proof.
  intros Hl Hd. unfold tableCard, filteredData. rewrite Hl, Hd.
  by case_bool_decide.
Qed.

Lemma mountEffect_failed host countriesNet taxesNet w :
  loadFails countriesNet taxesNet = true →
  let w' := mountEffect host countriesNet taxesNet w in
  loading (ui w') = false
  ∧ data (ui w') = data (ui w)
  ∧ (sent w' = sent w ++ [Get COUNTRIES_API]
     ∨ sent w' = sent w ++ [Get COUNTRIES_API; Get TAXES_API]).
Proof.
  intros Hfail.
  destruct countriesNet as [[[cs|]]|].
  - assert (Hsent : ∀ l : list Request,
              (l ++ [Get COUNTRIES_API]) ++ [Get TAXES_API]
              = l ++ [Get COUNTRIES_API; Get TAXES_API])
      by (intros l; by rewrite <- app_assoc).
    destruct taxesNet as [[[raw|]]|]; [done|..];
      (split; [done|]; split; [done|]; right; apply Hsent).
  - split; [done|]. split; [done|]. by left.
  - split; [done|]. split; [done|]. by left.
Qed.

(** C7.  When the load fails at any of its four steps, the state after the
    mount effect has the loading flag cleared and the record list untouched
    -- empty, as the component starts with an empty list, so that the table
    is shown with no rows; the state has no place for an error; and each
    endpoint has been requested at most once. *)
Theorem failed_load_leaves_empty_table host countriesNet taxesNet w :
  loadFails countriesNet taxesNet = true →
  let w' := mountEffect host countriesNet taxesNet w in
  let mounted := mountEffect host countriesNet taxesNet initialWorld in
  loading (ui w') = false
  ∧ data (ui w') = data (ui w)
  ∧ (sent w' = sent w ++ [Get COUNTRIES_API]
     ∨ sent w' = sent w ++ [Get COUNTRIES_API; Get TAXES_API])
  ∧ data (ui mounted) = []
  ∧ tableCard (ui mounted) = Table [].
Proof.
  intros Hfail w' mounted.
  destruct (mountEffect_failed host countriesNet taxesNet w Hfail) as (Hl & Hd & Hs).
  destruct (mountEffect_failed host countriesNet taxesNet initialWorld Hfail)
    as (Hl0 & Hd0 & _).
  repeat split; try done. by apply tableCard_empty.
Qed.

Lemma failed_load_leaves_empty_table_witness :
  let countriesNet := answered [ {| Country.name := "India" |} ] in
  let taxesNet : Outcome (Response (list TaxRecord.t)) := Rejected in
  let w' := mountEffect (JsDate.fixedOffset 0) countriesNet taxesNet initialWorld in
  loadFails countriesNet taxesNet = true
  ∧ loading (ui w') = false
  ∧ data (ui w') = [].
Proof.
  intros countriesNet taxesNet w'.
  pose proof (failed_load_leaves_empty_table (JsDate.fixedOffset 0)
                countriesNet taxesNet initialWorld eq_refl) as (Hl & Hd & _).
  split; [reflexivity|]. split; [exact Hl|exact Hd].
Defined.

(** ** Saving *)

Lemma dispatch_keeps_saving host ev w :
  saving (ui w) = true → saving (ui (dispatch host ev w)) = true.
Proof.
  intros Hs. unfold dispatch. destruct (available ev (ui w)) eqn:Hav; [|done].
  destruct ev; try done.
  simpl in Hav. rewrite Hs in Hav. by rewrite andb_false_r in Hav.
Qed.

Lemma run_keeps_saving host evs w :
  saving (ui w) = true → saving (ui (run host evs w)) = true.
Proof.
  revert w. induction evs as [|ev evs IH]; intros w Hs; [done|].
  simpl. apply IH. by apply dispatch_keeps_saving.
Qed.

(** C8.  When the PUT request or the parse of its response fails, the save
    ends in an exception that nothing handles; the editing slot still holds
    the record (the modal stays open), the record list is as before, and the
    saving flag is true -- and stays true whatever the user does next,
    since the only control that clears it is the disabled Save button. *)
Theorem failed_save_sticks host net w R :
  editing (ui w) = Some R →
  saveFails net = true →
  let w' := snd (handleSave host net w) in
  fst (handleSave host net w) = Throw
  ∧ editing (ui w') = Some R
  ∧ data (ui w') = data (ui w)
  ∧ saving (ui w') = true
  ∧ ∀ evs, saving (ui (run host evs w')) = true.
Proof.
  intros He Hfail.
  assert (Hnow : fst (handleSave host net w) = Throw
                 ∧ editing (ui (snd (handleSave host net w))) = Some R
                 ∧ data (ui (snd (handleSave host net w))) = data (ui w)
                 ∧ saving (ui (snd (handleSave host net w))) = true).
  { unfold handleSave, mbind, act_bind, getState. rewrite He.
    destruct net as [[[updated|]]|]; done. }
  destruct Hnow as (Ht & Hed & Hd & Hs). repeat split; try done.
  intros evs. by apply run_keeps_saving.
Qed.

Lemma failed_save_sticks_witness :
  let R := {| TaxRecord.id := "4"; TaxRecord.name := Some "Lena";
              TaxRecord.gender := Some "female"; TaxRecord.country := Some "Norway";
              TaxRecord.requestDate := Some "Nov 02, 2023";
              TaxRecord.createdAt := None |} in
  let host := JsDate.fixedOffset 0 in
  let w := snd (openEdit R {| ui := upd_loading false (upd_data (λ _, [R]) initialState);
                             sent := [] |}) in
  let net : Outcome (Response TaxRecord.t) := Resolved {| json := Rejected |} in
  let w' := snd (handleSave host net w) in
  editing (ui w) = Some R
  ∧ saveFails net = true
  ∧ saving (ui (run host [CancelBtnClick; EditBtnClick R; SaveBtnClick (answered R)] w')) = true.
Proof.
  intros R host w net w'.
  split; [reflexivity|]. split; [reflexivity|].
  apply (failed_save_sticks host net w R eq_refl eq_refl).
Defined.

Lemma handleSave_answered host w R updated :
  editing (ui w) = Some R →
  handleSave host (answered updated) w
  = (Normal (),
     {| ui := upd_modalCountryOpen (λ _, false)
                (upd_editing None
                   (upd_saving false
                      (upd_data
                         (λ s, (λ x, if bool_decide (TaxRecord.id x = TaxRecord.id updated)
                                     then normalize host updated else x) <$> s)
                         (upd_saving true (ui w)))));
        sent := sent w ++
                [Put (TAXES_API +:+ "/" +:+ TaxRecord.id R)
                     (TaxRecord.with_name_country (Form.name (form (ui w)))
                        (Form.country (form (ui w))) R)] |}).
Proof.
  intros He. unfold handleSave, mbind, act_bind, getState. by rewrite He.
Qed.

(** C3 (as amended).  Opening the modal on a record [R] of the list fills
    the form with [R]'s name and country, the empty string standing for an
    absent one.  After the name has been typed as [name'] and the country
    picked as [country'], saving sends one PUT, to [R]'s endpoint, whose
    body is [R] with name [name'] and country [country'].  What the list
    then holds is the server's answer: every record whose id is the
    answer's id is replaced by the answer with its date reformatted, and the
    others are kept.  So when the answer carries [R]'s id, the list has a
    record with [R]'s id and every such record has the answer's name and
    country -- [name'] and [country'] when the server echoes them.  The
    modal is closed and the saving flag cleared. *)
Theorem edit_then_save host w R name' country' updated :
  R ∈ data (ui w) →
  let opened := snd (openEdit R w) in
  let edited := snd (handle host (RadioChange {| Country.name := country' |})
                       (snd (handle host (NameInput name') opened))) in
  let saved := snd (handleSave host (answered updated) edited) in
  (editing (ui opened) = Some R
   ∧ form (ui opened) = {| Form.name := default "" (TaxRecord.name R);
                           Form.country := default "" (TaxRecord.country R) |})
  ∧ sent saved
    = sent w ++ [Put (TAXES_API +:+ "/" +:+ TaxRecord.id R)
                     {| TaxRecord.id := TaxRecord.id R;
                        TaxRecord.name := Some name';
                        TaxRecord.gender := TaxRecord.gender R;
                        TaxRecord.country := Some country';
                        TaxRecord.requestDate := TaxRecord.requestDate R;
                        TaxRecord.createdAt := TaxRecord.createdAt R |}]
  ∧ data (ui saved)
    = (λ x, if bool_decide (TaxRecord.id x = TaxRecord.id updated)
            then {| TaxRecord.id := TaxRecord.id updated;
                    TaxRecord.name := TaxRecord.name updated;
                    TaxRecord.gender := TaxRecord.gender updated;
                    TaxRecord.country := TaxRecord.country updated;
                    TaxRecord.requestDate :=
                      Some (formatDate host
                              match TaxRecord.requestDate updated with
                              | Some d => Some d
                              | None => TaxRecord.createdAt updated
                              end);
                    TaxRecord.createdAt := TaxRecord.createdAt updated |}
            else x) <$> data (ui w)
  ∧ (TaxRecord.id updated = TaxRecord.id R →
     (∃ x, x ∈ data (ui saved) ∧ TaxRecord.id x = TaxRecord.id R)
     ∧ ∀ x, x ∈ data (ui saved) → TaxRecord.id x = TaxRecord.id R →
            TaxRecord.name x = TaxRecord.name updated
            ∧ TaxRecord.country x = TaxRecord.country updated)
  ∧ editing (ui saved) = None
  ∧ saving (ui saved) = false.
Proof.
  intros HR opened edited saved.
  split; [done|].
  assert (He : editing (ui edited) = Some R) by done.
  unfold saved. rewrite (handleSave_answered host edited R updated He). simpl.
  split; [done|]. split; [done|]. split; [|done].
  intros Hid. split.
  - exists (normalize host updated). split; [|done].
    apply list_elem_of_fmap. exists R. split; [|done].
    by rewrite bool_decide_eq_true_2.
  - intros x Hx Hxid. apply list_elem_of_fmap in Hx as [y [-> Hy]].
    case_bool_decide as Hyid; [done|congruence].
Qed.

Lemma edit_then_save_witness :
  let R := {| TaxRecord.id := "2"; TaxRecord.name := Some "Asha";
              TaxRecord.gender := Some "female"; TaxRecord.country := None;
              TaxRecord.requestDate := Some "Nov 02, 2023";
              TaxRecord.createdAt := Some "2023-11-02T00:00:00Z" |} in
  let host := JsDate.fixedOffset 0 in
  let w := {| ui := upd_loading false (upd_data (λ _, [R]) initialState); sent := [] |} in
  let updated := TaxRecord.with_name_country "Asha K" "Nepal" R in
  let opened := snd (openEdit R w) in
  let edited := snd (handle host (RadioChange {| Country.name := "Nepal" |})
                       (snd (handle host (NameInput "Asha K") opened))) in
  let saved := snd (handleSave host (answered updated) edited) in
  R ∈ data (ui w)
  ∧ form (ui opened) = {| Form.name := "Asha"; Form.country := "" |}
  ∧ sent saved = [Put (TAXES_API +:+ "/2") updated]
  ∧ editing (ui saved) = None.
Proof.
  intros R host w updated opened edited saved.
  assert (HR : R ∈ data (ui w)) by (simpl; left).
  pose proof (edit_then_save host w R "Asha K" "Nepal" updated HR)
    as ((_ & Hform) & Hsent & _ & _ & Hclosed & _).
  split; [exact HR|]. split; [exact Hform|]. split; [exact Hsent|exact Hclosed].
Defined.

(** C3 as stated fails: the record kept for [R]'s id is what the server
    answers, not what the form held.  Here the server answers with the
    record as it was, and the list shows the old name. *)
Lemma save_stores_the_answer :
  let R := {| TaxRecord.id := "1"; TaxRecord.name := Some "Asha";
              TaxRecord.gender := Some "female"; TaxRecord.country := Some "India";
              TaxRecord.requestDate := Some ""; TaxRecord.createdAt := None |} in
  let host := JsDate.fixedOffset 0 in
  let w := {| ui := upd_loading false (upd_data (λ _, [R]) initialState); sent := [] |} in
  let opened := snd (openEdit R w) in
  let edited := snd (handle host (RadioChange {| Country.name := "Nepal" |})
                       (snd (handle host (NameInput "Asha K") opened))) in
  let saved := snd (handleSave host (answered R) edited) in
  form (ui edited) = {| Form.name := "Asha K"; Form.country := "Nepal" |}
  ∧ data (ui saved) = [R]
  ∧ ∃ x, x ∈ data (ui saved) ∧ TaxRecord.id x = TaxRecord.id R
         ∧ TaxRecord.name x ≠ Some "Asha K"
         ∧ TaxRecord.country x ≠ Some "Nepal".
Proof.
  intros R host w opened edited saved.
  split; [reflexivity|]. split; [reflexivity|].
  exists R. split; [left|]. split; [reflexivity|]. split; discriminate.
Qed.

(** ** What no event changes *)

Lemma dispatch_keeps_length host ev w :
  length (data (ui (dispatch host ev w))) = length (data (ui w)).
Proof.
  unfold dispatch. destruct (available ev (ui w)); [|done].
  destruct ev; try done. simpl.
  unfold handleSave, mbind, act_bind, getState.
  destruct (editing (ui w)) as [R|]; [|done].
  destruct net as [[[updated|]]|]; try done.
  simpl. apply length_fmap.
Qed.

(** The list never grows beyond what the load stored. *)
Lemma run_keeps_length host evs w :
  length (data (ui (run host evs w))) = length (data (ui w)).
Proof.
  revert w. induction evs as [|ev evs IH]; intros w; [done|].
  simpl. rewrite IH. apply dispatch_keeps_length.
Qed.

(* ================================================================== *)
(** * Further properties of the component *)

(** ** The load, continued *)

Lemma assign_keeps_no_proto (m : gmap string bool) k v :
  m !! "__proto__" = None → JsObject.assign m k v !! "__proto__" = None.
Proof.
  intros Hm. unfold JsObject.assign. case_bool_decide as Hk; [done|].
  rewrite lookup_insert_ne; [done|]. intros ->. apply Hk. by split.
Qed.

Lemma fresh_filter_lookup (cs : list Country.t) (m : gmap string bool) k :
  m !! "__proto__" = None →
  foldl (λ m c, JsObject.assign m (Country.name c) false) m cs !! k
  = if bool_decide (k ∈ Country.name <$> cs ∧ k ≠ "__proto__") then Some false
    else m !! k.
Proof.
  revert m. induction cs as [|c cs IH]; intros m Hm.
  - case_bool_decide as H; [|done]. destruct H as [H _]. by apply elem_of_nil in H.
  - change (foldl (λ m c, JsObject.assign m (Country.name c) false)
              (JsObject.assign m (Country.name c) false) cs !! k
            = if bool_decide (k ∈ Country.name c :: (Country.name <$> cs)
                              ∧ k ≠ "__proto__")
              then Some false else m !! k).
    rewrite IH by (by apply assign_keeps_no_proto). clear IH.
    unfold JsObject.assign.
    case_bool_decide as H1.
    + rewrite bool_decide_eq_true_2; [done|].
      destruct H1 as [Hin Hk]. split; [by right|done].
    + case_bool_decide as H2.
      * rewrite bool_decide_eq_false_2; [done|]. intros [Hin Hk].
        destruct H2 as [H2 _].
        apply elem_of_cons in Hin as [->|Hin]; [done|tauto].
      * case_bool_decide as H3.
        -- destruct H3 as [Hin Hk].
           apply elem_of_cons in Hin as [->|Hin]; [by rewrite lookup_insert_eq|tauto].
        -- rewrite lookup_insert_ne; [done|]. intros <-.
           apply H3. split; [by left|]. intros Hp. apply H2. split; [done|].
           by rewrite Hp.
Qed.

(** X1.  After a load whose two fetches succeed the country list is the
    fetched one and the filter map has as keys the names of the fetched
    countries, each mapped to [false], whatever the map held before -- all
    names but ["__proto__"], for which the assignment creates no key.  No
    filter is active.  The checkbox of every listed country is unchecked,
    except that of a country named ["__proto__"], which reads the prototype
    and shows as checked. *)
Theorem loaded_filter_is_fresh host cs raw w :
  let loaded := ui (mountEffect host (answered cs) (answered raw) w) in
  countries loaded = cs
  ∧ (∀ k, countryFilter loaded !! k
          = if bool_decide (k ∈ Country.name <$> cs ∧ k ≠ "__proto__")
            then Some false else None)
  ∧ dom (countryFilter loaded)
    = list_to_set (Country.name <$> cs) ∖ {[ "__proto__" ]}
  ∧ checkedNames loaded = ∅
  ∧ (∀ c, c ∈ cs →
          checkboxChecked loaded c = bool_decide (Country.name c = "__proto__")).
Proof.
  intros loaded.
  assert (Hk : ∀ k, countryFilter loaded !! k
                    = if bool_decide (k ∈ Country.name <$> cs ∧ k ≠ "__proto__")
                      then Some false else None).
  { intros k. unfold loaded, mountEffect. rewrite loader_answered. simpl.
    by rewrite fresh_filter_lookup, lookup_empty by apply lookup_empty. }
  split; [|split; [exact Hk|split; [|split]]].
  - unfold loaded, mountEffect. by rewrite loader_answered.
  - apply set_eq. intros k.
    rewrite elem_of_dom, Hk, elem_of_difference, elem_of_list_to_set,
      elem_of_singleton.
    case_bool_decide as Hin.
    + split; [done|]. intros _. by eexists.
    + split; [by intros [? ?]|done].
  - apply loaded_filter_inactive.
  - intros c Hc. unfold checkboxChecked, JsObject.truthyAt. rewrite Hk.
    case_bool_decide as Hin.
    + by rewrite bool_decide_eq_false_2 by tauto.
    + assert (Hp : Country.name c = "__proto__").
      { destruct (decide (Country.name c = "__proto__")) as [|Hne]; [done|].
        exfalso. apply Hin. split; [|done]. by apply list_elem_of_fmap_2. }
      rewrite Hp. reflexivity.
Qed.

Example proto_country_reads_checked :
  let cs := [ {| Country.name := "India" |}; {| Country.name := "__proto__" |} ] in
  let loaded := ui (mountEffect (JsDate.fixedOffset 0) (answered cs) (answered [])
                      initialWorld) in
  map_to_list (countryFilter loaded) = [ ("India", false) ]
  ∧ checkboxChecked loaded {| Country.name := "India" |} = false
  ∧ checkboxChecked loaded {| Country.name := "__proto__" |} = true.
Proof. vm_compute. done. Qed.

(** X2.  The two fetches are sequential.  Of the answers modelled -- the
    countries request fails, its body does not parse, or its body parses to
    an array of countries -- the taxes endpoint is requested exactly in the
    last case; in the other two only the countries request is sent, and the
    records are not loaded even if the taxes endpoint would have answered:
    the record list, the countries and the filter map are left as they
    were.  (A body that parses to something other than an array is outside
    the model.) *)
Theorem taxes_wait_for_countries host countriesNet taxesNet w :
  let w' := mountEffect host countriesNet taxesNet w in
  match countriesNet with
  | Resolved {| json := Resolved cs |} =>
      sent w' = sent w ++ [Get COUNTRIES_API; Get TAXES_API]
      ∧ countries (ui w') = cs
  | _ =>
      sent w' = sent w ++ [Get COUNTRIES_API]
      ∧ data (ui w') = data (ui w)
      ∧ countries (ui w') = countries (ui w)
      ∧ countryFilter (ui w') = countryFilter (ui w)
  end.
Proof.
  destruct countriesNet as [[[cs|]]|]; [|done..].
  destruct taxesNet as [[[raw|]]|]; simpl; by rewrite <- app_assoc.
Qed.

(** X3.  Loading again with the same answers, in whatever state, gives the
    state of a single load: nothing of what the load stores depends on what
    was there before. *)
Theorem load_twice_same_state host countriesNet taxesNet w :
  ui (mountEffect host countriesNet taxesNet
        (mountEffect host countriesNet taxesNet w))
  = ui (mountEffect host countriesNet taxesNet w).
Proof.
  destruct countriesNet as [[[cs|]]|]; [|done..].
  destruct taxesNet as [[[raw|]]|]; done.
Qed.

(** ** What each event can change *)

Lemma handleSave_footprint host net w :
  let w' := snd (handleSave host net w) in
  countries (ui w') = countries (ui w)
  ∧ loading (ui w') = loading (ui w)
  ∧ searchCountry (ui w') = searchCountry (ui w)
  ∧ countryFilter (ui w') = countryFilter (ui w)
  ∧ filterOpen (ui w') = filterOpen (ui w)
  ∧ form (ui w') = form (ui w).
Proof.
  unfold handleSave, mbind, act_bind, getState.
  destruct (editing (ui w)) as [R|]; [|done].
  destruct net as [[[updated|]]|]; done.
Qed.

(** X4.  The footprint of one user event.  No event changes the country
    list or the loading flag.  Only a click on Save changes the record list,
    sends a request or touches the saving flag; only the two search boxes
    change the search text; only a checkbox changes the filter map. *)
Theorem event_footprint host ev w :
  let w' := dispatch host ev w in
  countries (ui w') = countries (ui w)
  ∧ loading (ui w') = loading (ui w)
  ∧ (isSave ev = false →
     data (ui w') = data (ui w) ∧ sent w' = sent w
     ∧ saving (ui w') = saving (ui w))
  ∧ (isSearchInput ev = false → searchCountry (ui w') = searchCountry (ui w))
  ∧ (isCheckboxChange ev = false → countryFilter (ui w') = countryFilter (ui w)).
Proof.
  unfold dispatch. destruct (available ev (ui w)); [|done].
  destruct ev; try done.
  destruct (handleSave_footprint host net w) as (Hc & Hl & Hs & Hf & _).
  simpl. by repeat split.
Qed.

Lemma dispatch_keeps_ids host ev w :
  TaxRecord.id <$> data (ui (dispatch host ev w)) = TaxRecord.id <$> data (ui w).
Proof.
  unfold dispatch. destruct (available ev (ui w)); [|done].
  destruct ev; try done. simpl.
  unfold handleSave, mbind, act_bind, getState.
  destruct (editing (ui w)) as [R|]; [|done].
  destruct net as [[[updated|]]|]; try done.
  simpl. rewrite <- list_fmap_compose. apply list_fmap_ext.
  intros i x _. simpl. by case_bool_decide.
Qed.

(** X5.  No sequence of events adds, removes or reorders records: the list
    of the ids of the records in state stays what it was.  A save replaces
    records in place, and only by a record of the same id. *)
Theorem run_keeps_ids host evs w :
  TaxRecord.id <$> data (ui (run host evs w)) = TaxRecord.id <$> data (ui w).
Proof.
  revert w. induction evs as [|ev evs IH]; intros w; [done|].
  simpl. rewrite IH. apply dispatch_keeps_ids.
Qed.

(** X6.  However many records the taxes endpoint returns and whatever the
    user does afterwards, the component holds as many records as the load
    stored: the fetched ones when there are at most 7, and 7 otherwise. *)
Theorem never_more_than_seven host cs raw w evs :
  let loaded := mountEffect host (answered cs) (answered raw) w in
  length (data (ui (run host evs loaded))) = Nat.min 7 (length raw)
  ∧ (length (data (ui (run host evs loaded))) ≤ 7)%nat.
Proof.
  intros loaded.
  assert (Hlen : length (data (ui (run host evs loaded))) = Nat.min 7 (length raw)).
  { rewrite run_keeps_length. unfold loaded, mountEffect.
    rewrite loader_answered. simpl.
    by rewrite slice_last_seven, patchFirst_length, length_fmap, lastEntries_length. }
  split; [done|]. rewrite Hlen. lia.
Qed.

Lemma patchFirst_dated l :
  Forall (λ r, is_Some (TaxRecord.requestDate r)) l →
  Forall (λ r, is_Some (TaxRecord.requestDate r)) (patchFirst l).
Proof.
  intros Hl. unfold patchFirst. destruct l as [|first l]; [done|]. simpl.
  destruct (TaxRecord.name first); [|done].
  case_bool_decide; [|done]. simpl.
  apply Forall_cons in Hl as [Hf Hl]. by apply Forall_cons.
Qed.

Lemma dispatch_keeps_dated host ev w :
  Forall (λ r, is_Some (TaxRecord.requestDate r)) (data (ui w)) →
  Forall (λ r, is_Some (TaxRecord.requestDate r)) (data (ui (dispatch host ev w))).
Proof.
  intros Hd. unfold dispatch. destruct (available ev (ui w)); [|done].
  destruct ev; try done. simpl.
  unfold handleSave, mbind, act_bind, getState.
  destruct (editing (ui w)) as [R|]; [|done].
  destruct net as [[[updated|]]|]; try done.
  simpl. apply Forall_fmap. eapply Forall_impl; [exact Hd|].
  intros x Hx. simpl. by case_bool_decide.
Qed.

Lemma run_keeps_dated host evs w :
  Forall (λ r, is_Some (TaxRecord.requestDate r)) (data (ui w)) →
  Forall (λ r, is_Some (TaxRecord.requestDate r)) (data (ui (run host evs w))).
Proof.
  revert w. induction evs as [|ev evs IH]; intros w Hd; [done|].
  simpl. apply IH. by apply dispatch_keeps_dated.
Qed.

Lemma loaded_dated host cs raw w :
  Forall (λ r, is_Some (TaxRecord.requestDate r))
         (data (ui (mountEffect host (answered cs) (answered raw) w))).
Proof.
  unfold mountEffect. rewrite loader_answered. simpl.
  apply patchFirst_dated, Forall_fmap, Forall_true. intros t. by eexists.
Qed.

(** X7.  From a successful load on, every record in state has a
    [requestDate] string, whatever the user does and whatever the server
    answers to a save: the load and the save both write the formatted date
    into it.  So the Request date cell shows that string, or the dash when
    it is empty. *)
Theorem records_always_dated host cs raw w evs r :
  r ∈ data (ui (run host evs (mountEffect host (answered cs) (answered raw) w))) →
  ∃ d, TaxRecord.requestDate r = Some d
       ∧ requestDateCell r = if bool_decide (d = "") then "-" else d.
Proof.
  intros Hr.
  pose proof (run_keeps_dated host evs _ (loaded_dated host cs raw w)) as Hall.
  rewrite Forall_forall in Hall. destruct (Hall r Hr) as [d Hd].
  exists d. split; [done|]. unfold requestDateCell. rewrite Hd.
  by destruct d.
Qed.

Lemma records_always_dated_witness :
  let host := JsDate.fixedOffset 0 in
  let t := {| TaxRecord.id := "5"; TaxRecord.name := Some "Omar";
              TaxRecord.gender := None; TaxRecord.country := Some "Egypt";
              TaxRecord.requestDate := None; TaxRecord.createdAt := None |} in
  let r := TaxRecord.with_requestDate (Some "") t in
  let w := mountEffect host (answered []) (answered [t]) initialWorld in
  r ∈ data (ui (run host [FilterBtnClick; EditBtnClick r] w))
  ∧ ∃ d, TaxRecord.requestDate r = Some d
         ∧ requestDateCell r = if bool_decide (d = "") then "-" else d.
Proof.
  intros host t r w.
  assert (Hr : r ∈ data (ui (run host [FilterBtnClick; EditBtnClick r] w)))
    by (vm_compute; left).
  split; [exact Hr|].
  exact (records_always_dated host [] [t] initialWorld
           [FilterBtnClick; EditBtnClick r] r Hr).
Defined.

(** ** Requests *)

Lemma handleSave_sends host net w :
  sent (snd (handleSave host net w)) = sent w
  ∨ ∃ req, putOfOwnId req ∧ sent (snd (handleSave host net w)) = sent w ++ [req].
Proof.
  unfold handleSave, mbind, act_bind, getState.
  destruct (editing (ui w)) as [R|]; [|by left].
  right.
  exists (Put (TAXES_API +:+ "/" +:+ TaxRecord.id R)
              (TaxRecord.with_name_country (Form.name (form (ui w)))
                 (Form.country (form (ui w))) R)).
  split.
  - unfold putOfOwnId.
    by exists (TaxRecord.with_name_country (Form.name (form (ui w)))
                 (Form.country (form (ui w))) R).
  - destruct net as [[[updated|]]|]; done.
Qed.

Lemma sends_nothing (l : list Request) (n : nat) :
  ∃ puts, l = l ++ puts ∧ Forall putOfOwnId puts ∧ (length puts ≤ n)%nat.
Proof.
  exists []. split; [by rewrite app_nil_r|]. split; [constructor|simpl; lia].
Qed.

Lemma dispatch_sends host ev w :
  ∃ puts, sent (dispatch host ev w) = sent w ++ puts
          ∧ Forall putOfOwnId puts
          ∧ (length puts ≤ if isSave ev then 1 else 0)%nat.
Proof.
  unfold dispatch. destruct (available ev (ui w)); [|apply sends_nothing].
  destruct ev; try apply sends_nothing.
  destruct (handleSave_sends host net w) as [Hs | (req & Hreq & Hs)].
  - simpl. rewrite Hs. apply sends_nothing.
  - exists [req]. simpl. rewrite Hs.
    split; [done|]. split; [by constructor|lia].
Qed.

(** X8.  Whatever the user does, the only requests the component sends are
    PUTs to the taxes endpoint, each to the address of the id of its own
    body, and at most one for every click on Save. *)
Theorem run_sends_only_puts host evs w :
  ∃ puts, sent (run host evs w) = sent w ++ puts
          ∧ Forall putOfOwnId puts
          ∧ (length puts ≤ length (filter (λ ev, isSave ev = true) evs))%nat.
Proof.
  revert w. induction evs as [|ev evs IH]; intros w.
  - apply sends_nothing.
  - simpl. destruct (IH (dispatch host ev w)) as (puts2 & Hs2 & Hp2 & Hl2).
    destruct (dispatch_sends host ev w) as (puts1 & Hs1 & Hp1 & Hl1).
    exists (puts1 ++ puts2). split; [|split].
    + by rewrite Hs2, Hs1, app_assoc.
    + by apply Forall_app.
    + rewrite length_app, filter_cons.
      destruct (isSave ev); case_decide; simpl in *; try done; lia.
Qed.

Lemma dispatch_while_saving host ev w :
  saving (ui w) = true →
  sent (dispatch host ev w) = sent w ∧ data (ui (dispatch host ev w)) = data (ui w).
Proof.
  intros Hs. unfold dispatch. destruct (available ev (ui w)) eqn:Hav; [|done].
  destruct ev; try done.
  simpl in Hav. rewrite Hs in Hav. by rewrite andb_false_r in Hav.
Qed.

(** X9.  After a save has failed the component is frozen for saving: in
    every later state the Save button is disabled, so nothing the user does
    sends another request or changes the record list. *)
Theorem failed_save_freezes host net w R evs :
  editing (ui w) = Some R →
  saveFails net = true →
  let w' := snd (handleSave host net w) in
  sent (run host evs w') = sent w'
  ∧ data (ui (run host evs w')) = data (ui w)
  ∧ ∀ net', available (SaveBtnClick net') (ui (run host evs w')) = false.
Proof.
  intros He Hfail w'.
  assert (Hs : saving (ui w') = true ∧ data (ui w') = data (ui w)).
  { unfold w', handleSave, mbind, act_bind, getState. rewrite He.
    destruct net as [[[updated|]]|]; done. }
  destruct Hs as [Hs Hd]. rewrite <- Hd. clear Hd He Hfail.
  generalize dependent w'. clear w. induction evs as [|ev evs IH]; intros w Hs.
  - repeat split. intros net'. simpl. rewrite Hs. apply andb_false_r.
  - simpl. destruct (dispatch_while_saving host ev w Hs) as [Hsent Hdata].
    rewrite <- Hsent, <- Hdata. apply IH. by apply dispatch_keeps_saving.
Qed.

Lemma failed_save_freezes_witness :
  let R := {| TaxRecord.id := "9"; TaxRecord.name := Some "Ines";
              TaxRecord.gender := Some "female"; TaxRecord.country := Some "Peru";
              TaxRecord.requestDate := Some ""; TaxRecord.createdAt := None |} in
  let host := JsDate.fixedOffset 0 in
  let w := snd (openEdit R {| ui := upd_loading false (upd_data (λ _, [R]) initialState);
                             sent := [] |}) in
  let net : Outcome (Response TaxRecord.t) := Rejected in
  let w' := snd (handleSave host net w) in
  editing (ui w) = Some R
  ∧ saveFails net = true
  ∧ sent (run host [NameInput "Ines M"; SaveBtnClick (answered R)] w') = sent w'.
Proof.
  intros R host w net w'.
  split; [reflexivity|]. split; [reflexivity|].
  apply (failed_save_freezes host net w R
           [NameInput "Ines M"; SaveBtnClick (answered R)] eq_refl eq_refl).
Defined.

(** ** Saving, continued *)

(** X10.  When the server answers a save with a record whose id is the id
    of no record in state, the record list is left as it was, and the save
    ends like any successful one -- modal closed, saving flag cleared:
    nothing tells the user that the edit is not shown. *)
Theorem save_answer_of_unknown_id host w R updated :
  editing (ui w) = Some R →
  (∀ x, x ∈ data (ui w) → TaxRecord.id x ≠ TaxRecord.id updated) →
  let saved := snd (handleSave host (answered updated) w) in
  fst (handleSave host (answered updated) w) = Normal ()
  ∧ data (ui saved) = data (ui w)
  ∧ editing (ui saved) = None
  ∧ saving (ui saved) = false.
Proof.
  intros He Hnone. rewrite (handleSave_answered host w R updated He). simpl.
  split; [done|]. split; [|done].
  rewrite <- (list_fmap_id (data (ui w))) at 2.
  apply list_fmap_ext. intros i x Hx. simpl.
  rewrite bool_decide_eq_false_2; [done|].
  apply Hnone. by eapply list_elem_of_lookup_2.
Qed.

Lemma save_answer_of_unknown_id_witness :
  let R := {| TaxRecord.id := "3"; TaxRecord.name := Some "Noor";
              TaxRecord.gender := None; TaxRecord.country := Some "Oman";
              TaxRecord.requestDate := Some ""; TaxRecord.createdAt := None |} in
  let updated := {| TaxRecord.id := "30"; TaxRecord.name := Some "Noor A";
                    TaxRecord.gender := None; TaxRecord.country := Some "Oman";
                    TaxRecord.requestDate := None; TaxRecord.createdAt := None |} in
  let host := JsDate.fixedOffset 0 in
  let w := snd (openEdit R {| ui := upd_loading false (upd_data (λ _, [R]) initialState);
                             sent := [] |}) in
  editing (ui w) = Some R
  ∧ data (ui (snd (handleSave host (answered updated) w))) = [R].
Proof.
  intros R updated host w.
  split; [reflexivity|].
  refine (proj1 (proj2 (save_answer_of_unknown_id host w R updated eq_refl _))).
  intros x Hx. simpl in Hx. apply list_elem_of_singleton in Hx. subst x.
  simpl. discriminate.
Defined.

Lemma loaded_lookup host cs raw w (i : nat) :
  data (ui (mountEffect host (answered cs) (answered raw) w)) !! i
  = (λ t, {| TaxRecord.id := TaxRecord.id t;
             TaxRecord.name := TaxRecord.name t;
             TaxRecord.gender :=
               if (i =? 0)%nat && isHarsh t then Some "Female"
               else TaxRecord.gender t;
             TaxRecord.country := TaxRecord.country t;
             TaxRecord.requestDate :=
               Some (formatDate host (nullish (TaxRecord.requestDate t)
                                              (TaxRecord.createdAt t)));
             TaxRecord.createdAt := TaxRecord.createdAt t |})
    <$> raw !! (length raw - 7 + i)%nat.
Proof.
  unfold mountEffect. rewrite loader_answered. simpl.
  rewrite slice_last_seven. destruct i as [|i].
  - rewrite patchFirst_head, list_lookup_fmap, lastEntries_lookup.
    destruct (raw !! _) as [t|]; [|done]. simpl.
    rewrite isHarsh_normalize. by destruct (isHarsh t).
  - rewrite patchFirst_tail, list_lookup_fmap, lastEntries_lookup.
    by destruct (raw !! _).
Qed.

(** X11.  Saving a loaded record writes the display values back to the
    server.  For the source entry [t] that the load stored at position [i],
    opening the modal and saving without touching the form sends a PUT whose
    body has, in place of [t]'s date, the formatted date; in place of an
    absent name or country, the empty string; and, for a first entry whose
    name lowercases to "harsh", the gender "Female".  The request goes out
    whether or not the server then answers. *)
Theorem save_writes_display_values_back host cs raw w (i : nat) t net :
  raw !! (length raw - 7 + i)%nat = Some t →
  let loaded := mountEffect host (answered cs) (answered raw) w in
  ∃ R, data (ui loaded) !! i = Some R
       ∧ sent (snd (handleSave host net (snd (openEdit R loaded))))
         = sent loaded
           ++ [Put (TAXES_API +:+ "/" +:+ TaxRecord.id t)
                 {| TaxRecord.id := TaxRecord.id t;
                    TaxRecord.name := Some (default "" (TaxRecord.name t));
                    TaxRecord.gender :=
                      if (i =? 0)%nat && isHarsh t then Some "Female"
                      else TaxRecord.gender t;
                    TaxRecord.country := Some (default "" (TaxRecord.country t));
                    TaxRecord.requestDate :=
                      Some (formatDate host (nullish (TaxRecord.requestDate t)
                                                     (TaxRecord.createdAt t)));
                    TaxRecord.createdAt := TaxRecord.createdAt t |}].
Proof.
  intros Ht loaded. eexists. split.
  - unfold loaded. rewrite loaded_lookup, Ht. reflexivity.
  - unfold handleSave, mbind, act_bind, getState. simpl.
    destruct net as [[[updated|]]|]; done.
Qed.

Lemma save_writes_display_values_back_witness :
  let host := JsDate.fixedOffset 0 in
  let t := {| TaxRecord.id := "1"; TaxRecord.name := Some "Harsh";
              TaxRecord.gender := Some "Male"; TaxRecord.country := None;
              TaxRecord.requestDate := None;
              TaxRecord.createdAt := Some "2023-11-02T00:00:00Z" |} in
  let loaded := mountEffect host (answered []) (answered [t]) initialWorld in
  [t] !! (length [t] - 7 + 0)%nat = Some t
  ∧ ∃ R, data (ui loaded) !! 0%nat = Some R
         ∧ sent (snd (handleSave host Rejected (snd (openEdit R loaded))))
           = sent loaded
             ++ [Put (TAXES_API +:+ "/1")
                   {| TaxRecord.id := "1"; TaxRecord.name := Some "Harsh";
                      TaxRecord.gender := Some "Female"; TaxRecord.country := Some "";
                      TaxRecord.requestDate := Some "Nov 02, 2023";
                      TaxRecord.createdAt := Some "2023-11-02T00:00:00Z" |}].
Proof.
  intros host t loaded. split; [reflexivity|].
  exact (save_writes_display_values_back host [] [t] initialWorld 0 t Rejected eq_refl).
Defined.

(** ** The filter, continued *)

Lemma elem_of_checkedNames_toggled host c w k :
  k ∈ checkedNames (ui (snd (handle host (FilterCheckboxChange c) w)))
  ↔ if bool_decide (k = Country.name c)
    then checkboxChecked (ui w) c = false
    else k ∈ checkedNames (ui w).
Proof.
  case_bool_decide as Hk; rewrite !elem_of_checkedNames; simpl;
    unfold JsObject.spreadWith.
  - subst k. rewrite lookup_insert_eq. unfold checkboxChecked.
    destruct (JsObject.truthyAt _ _); naive_solver.
  - by rewrite lookup_insert_ne.
Qed.

Lemma checkbox_toggled host c w c' :
  checkboxChecked (ui (snd (handle host (FilterCheckboxChange c) w))) c'
  = if bool_decide (Country.name c' = Country.name c)
    then negb (checkboxChecked (ui w) c)
    else checkboxChecked (ui w) c'.
Proof.
  destruct (decide (Country.name c' = Country.name c)) as [Hc|Hc].
  - rewrite bool_decide_eq_true_2 by done.
    unfold checkboxChecked at 1. unfold JsObject.truthyAt at 1. simpl.
    unfold JsObject.spreadWith. by rewrite Hc, lookup_insert_eq.
  - rewrite bool_decide_eq_false_2 by done.
    unfold checkboxChecked, JsObject.truthyAt. simpl.
    unfold JsObject.spreadWith. by rewrite lookup_insert_ne.
Qed.

(** X12.  A change of the checkbox of country [c] flips what the box of
    [c]'s name shows and leaves the box of every other name as it was.  The
    name becomes an active filter when its box showed unchecked and stops
    being one when it showed checked -- where a name that is no key of the
    map shows unchecked, unless it names a property of [Object.prototype],
    in which case it shows checked and the change stores [false]. *)
Theorem checkbox_flips_one_name host c w :
  let s' := ui (snd (handle host (FilterCheckboxChange c) w)) in
  checkboxChecked s' c = negb (checkboxChecked (ui w) c)
  ∧ (∀ c', Country.name c' ≠ Country.name c →
           checkboxChecked s' c' = checkboxChecked (ui w) c')
  ∧ checkedNames s'
    = (if checkboxChecked (ui w) c
       then checkedNames (ui w) ∖ {[ Country.name c ]}
       else checkedNames (ui w) ∪ {[ Country.name c ]})
  ∧ (countryFilter (ui w) !! Country.name c = None →
     checkboxChecked (ui w) c
     = bool_decide (Country.name c ∈ JsObject.prototypeKeys)).
Proof.
  intros s'. split; [|split; [|split]].
  - unfold s'. by rewrite checkbox_toggled, bool_decide_eq_true_2.
  - intros c' Hne. unfold s'. by rewrite checkbox_toggled, bool_decide_eq_false_2.
  - apply set_eq. intros k. unfold s'.
    rewrite elem_of_checkedNames_toggled.
    destruct (decide (k = Country.name c)) as [->|Hne].
    + rewrite bool_decide_eq_true_2 by done.
      destruct (checkboxChecked (ui w) c).
      * rewrite elem_of_difference, elem_of_singleton. split; [done|tauto].
      * rewrite elem_of_union, elem_of_singleton. tauto.
    + rewrite bool_decide_eq_false_2 by done.
      destruct (checkboxChecked (ui w) c).
      * rewrite elem_of_difference, elem_of_singleton. tauto.
      * rewrite elem_of_union, elem_of_singleton. tauto.
  - intros Hnone. unfold checkboxChecked, JsObject.truthyAt. by rewrite Hnone.
Qed.

(** X13.  Changing the same checkbox twice always restores what every box
    shows.  It restores the active filters, and with them the rows shown,
    when the name is a key of the filter map or is not the name of a
    property of [Object.prototype]; for the remaining names -- ["__proto__"]
    after a load, for one -- the two changes store [false], then [true], and
    the name, which was no active filter, ends as one. *)
Theorem checkbox_twice_restores host c w :
  let once := snd (handle host (FilterCheckboxChange c) w) in
  let twice := snd (handle host (FilterCheckboxChange c) once) in
  (∀ c', checkboxChecked (ui twice) c' = checkboxChecked (ui w) c')
  ∧ (is_Some (countryFilter (ui w) !! Country.name c)
     ∨ Country.name c ∉ JsObject.prototypeKeys →
     checkedNames (ui twice) = checkedNames (ui w)
     ∧ filteredData (ui twice) = filteredData (ui w)
     ∧ tableCard (ui twice) = tableCard (ui w))
  ∧ (countryFilter (ui w) !! Country.name c = None →
     Country.name c ∈ JsObject.prototypeKeys →
     checkedNames (ui twice) = checkedNames (ui w) ∪ {[ Country.name c ]}
     ∧ Country.name c ∉ checkedNames (ui w)).
Proof.
  intros once twice.
  assert (Hmem : ∀ k, k ∈ checkedNames (ui twice)
                      ↔ if bool_decide (k = Country.name c)
                        then checkboxChecked (ui w) c = true
                        else k ∈ checkedNames (ui w)).
  { intros k. unfold twice. rewrite elem_of_checkedNames_toggled. unfold once.
    destruct (decide (k = Country.name c)) as [->|Hk].
    - rewrite !bool_decide_eq_true_2 by done.
      rewrite checkbox_toggled, bool_decide_eq_true_2 by done.
      apply negb_false_iff.
    - rewrite !bool_decide_eq_false_2 by done.
      by rewrite elem_of_checkedNames_toggled, bool_decide_eq_false_2. }
  split; [|split].
  - intros c'. unfold twice. rewrite checkbox_toggled. unfold once.
    case_bool_decide as Hc; [|by rewrite checkbox_toggled, bool_decide_eq_false_2].
    rewrite checkbox_toggled, bool_decide_eq_true_2, negb_involutive by done.
    unfold checkboxChecked. by rewrite Hc.
  - intros Hown.
    assert (Hsel : checkedNames (ui twice) = checkedNames (ui w)).
    { apply set_eq. intros k. rewrite Hmem.
      case_bool_decide as Hk; [|done]. subst k.
      rewrite elem_of_checkedNames.
      unfold checkboxChecked, JsObject.truthyAt.
      destruct (countryFilter (ui w) !! Country.name c) as [v|] eqn:Hv.
      - split; congruence.
      - destruct Hown as [[? ?]|Hp]; [done|].
        rewrite bool_decide_eq_false_2 by done. split; done. }
    assert (Hrows : filteredData (ui twice) = filteredData (ui w)).
    { by rewrite !filteredData_eq, Hsel. }
    split; [done|]. split; [done|].
    unfold tableCard. by rewrite Hrows.
  - intros Hnone Hproto. split.
    + apply set_eq. intros k. rewrite Hmem, elem_of_union, elem_of_singleton.
      case_bool_decide as Hk; [|tauto]. subst k.
      unfold checkboxChecked, JsObject.truthyAt.
      rewrite Hnone, bool_decide_eq_true_2 by done. tauto.
    + rewrite elem_of_checkedNames, Hnone. discriminate.
Qed.

Example proto_box_twice_becomes_filter :
  let cs := [ {| Country.name := "__proto__" |} ] in
  let r := {| TaxRecord.id := "1"; TaxRecord.name := Some "Asha";
              TaxRecord.gender := None; TaxRecord.country := Some "India";
              TaxRecord.requestDate := None; TaxRecord.createdAt := None |} in
  let host := JsDate.fixedOffset 0 in
  let loaded := mountEffect host (answered cs) (answered [r]) initialWorld in
  let box := FilterCheckboxChange {| Country.name := "__proto__" |} in
  let twice := snd (handle host box (snd (handle host box loaded))) in
  length (filteredData (ui loaded)) = 1%nat
  ∧ map_to_list (countryFilter (ui twice)) = [ ("__proto__", true) ]
  ∧ filteredData (ui twice) = [].
Proof. vm_compute. done. Qed.



Example first_box_can_hide_rows :
  let r := {| TaxRecord.id := "2"; TaxRecord.name := Some "Lena";
              TaxRecord.gender := None; TaxRecord.country := Some "Norway";
              TaxRecord.requestDate := Some ""; TaxRecord.createdAt := None |} in
  let s := upd_data (λ _, [r]) initialState in
  let s' := upd_countryFilter (λ _, {[ "India" := true ]}) s in
  filteredData s = [r] ∧ filteredData s' = [].
Proof. split; vm_compute; reflexivity. Qed.

(** ** The search text, continued *)

Lemma string_app_assoc (a b c : string) : (a +:+ b) +:+ c = a +:+ b +:+ c.
Proof.
  induction a as [|x a IH]; [done|].
  change (String x ((a +:+ b) +:+ c) = String x (a +:+ b +:+ c)). by f_equal.
Qed.

Lemma includes_empty s : JsString.includes s "" = true.
Proof. apply includes_spec. by exists "", s. Qed.

Lemma includes_trans a b c :
  JsString.includes a b = true → JsString.includes b c = true →
  JsString.includes a c = true.
Proof.
  rewrite !includes_spec. intros (p1 & q1 & ->) (p2 & q2 & ->).
  exists (p1 +:+ p2), (q2 +:+ q1).
  by rewrite !string_app_assoc.
Qed.

(** X15.  With an empty search text both option lists show every country,
    in the fetched order; this is the state of the two lists after a
    successful load of a freshly mounted component. *)
Theorem empty_search_lists_all host cs raw s :
  searchCountry s = "" →
  let loaded := ui (mountEffect host (answered cs) (answered raw) initialWorld) in
  filterListCountries s = countries s
  ∧ dropdownListCountries s = countries s
  ∧ filterListCountries loaded = cs
  ∧ dropdownListCountries loaded = cs.
Proof.
  intros Hs loaded.
  assert (Hall : ∀ l : list Country.t,
            filter (λ c, JsString.includes (JsString.toLowerCase (Country.name c))
                           (JsString.toLowerCase "") = true) l = l).
  { intros l. apply filter_all. intros c _. apply includes_empty. }
  unfold filterListCountries, dropdownListCountries. rewrite Hs.
  repeat split; apply Hall.
Qed.

Lemma empty_search_lists_all_witness :
  let cs := [ {| Country.name := "India" |}; {| Country.name := "Norway" |} ] in
  let s := upd_countries cs initialState in
  searchCountry s = "" ∧ filterListCountries s = cs ∧ dropdownListCountries s = cs.
Proof.
  intros cs s.
  destruct (empty_search_lists_all (JsDate.fixedOffset 0) [] [] s eq_refl)
    as (Hf & Hd & _).
  split; [reflexivity|]. split; [exact Hf|exact Hd].
Defined.

(** X16.  Refining the search text narrows both lists: if the lowercased
    text of state [s1] occurs in the lowercased text of [s2], and both have
    the same countries, every option listed in [s2] is listed in [s1], in
    the same order. *)
Theorem refined_search_narrows s1 s2 :
  countries s2 = countries s1 →
  JsString.includes (JsString.toLowerCase (searchCountry s2))
                    (JsString.toLowerCase (searchCountry s1)) = true →
  filterListCountries s2 `sublist_of` filterListCountries s1
  ∧ dropdownListCountries s2 `sublist_of` dropdownListCountries s1.
Proof.
  intros Hc Hsub.
  assert (H : filterListCountries s2 `sublist_of` filterListCountries s1).
  { unfold filterListCountries. rewrite Hc.
    erewrite <- (list_filter_filter_l _
      (λ c, JsString.includes (JsString.toLowerCase (Country.name c))
              (JsString.toLowerCase (searchCountry s1)) = true)).
    - apply sublist_filter.
    - intros c Hin. simpl in *. by eapply includes_trans. }
  split; exact H.
Qed.

Lemma refined_search_narrows_witness :
  let cs := [ {| Country.name := "India" |}; {| Country.name := "Indonesia" |};
              {| Country.name := "Finland" |} ] in
  let s1 := upd_searchCountry "IN" (upd_countries cs initialState) in
  let s2 := upd_searchCountry "ind" (upd_countries cs initialState) in
  countries s2 = countries s1
  ∧ filterListCountries s1 = cs
  ∧ filterListCountries s2 = [ {| Country.name := "India" |};
                               {| Country.name := "Indonesia" |} ]
  ∧ filterListCountries s2 `sublist_of` filterListCountries s1.
Proof.
  intros cs s1 s2.
  split; [reflexivity|]. split; [reflexivity|]. split; [reflexivity|].
  apply (refined_search_narrows s1 s2 eq_refl eq_refl).
Defined.

Lemma dispatch_keeps_search host ev w :
  isSearchInput ev = false →
  searchCountry (ui (dispatch host ev w)) = searchCountry (ui w)
  ∧ countries (ui (dispatch host ev w)) = countries (ui w).
Proof.
  intros Hev. unfold dispatch. destruct (available ev (ui w)); [|done].
  destruct ev; try done.
  destruct (handleSave_footprint host net w) as (Hc & _ & Hs & _). done.
Qed.

(** X17.  Nothing but the two search boxes changes the search text: it
    survives closing the modal, opening it on another row, saving and
    filtering.  So after any such events the dropdown of the modal lists the
    countries matching the text typed before -- possibly in the filter
    popover. *)
Theorem search_text_survives host evs w :
  forallb (λ ev, negb (isSearchInput ev)) evs = true →
  searchCountry (ui (run host evs w)) = searchCountry (ui w)
  ∧ dropdownListCountries (ui (run host evs w))
    = countriesMatching (searchCountry (ui w)) (countries (ui w))
  ∧ filterListCountries (ui (run host evs w))
    = countriesMatching (searchCountry (ui w)) (countries (ui w)).
Proof.
  intros Hevs.
  assert (H : searchCountry (ui (run host evs w)) = searchCountry (ui w)
              ∧ countries (ui (run host evs w)) = countries (ui w)).
  { revert w. induction evs as [|ev evs IH]; intros w; [done|].
    simpl in Hevs. apply andb_true_iff in Hevs as [Hev Hevs].
    apply negb_true_iff in Hev.
    destruct (dispatch_keeps_search host ev w Hev) as [Hs Hc].
    simpl. destruct (IH Hevs (dispatch host ev w)) as [Hs' Hc'].
    split; congruence. }
  destruct H as [Hs Hc]. split; [done|].
  unfold dropdownListCountries, filterListCountries, countriesMatching.
  by rewrite Hs, Hc.
Qed.

Lemma search_text_survives_witness :
  let host := JsDate.fixedOffset 0 in
  let r := {| TaxRecord.id := "1"; TaxRecord.name := Some "Asha";
              TaxRecord.gender := None; TaxRecord.country := Some "India";
              TaxRecord.requestDate := Some ""; TaxRecord.createdAt := None |} in
  let cs := [ {| Country.name := "India" |}; {| Country.name := "Norway" |} ] in
  let typed := run host [FilterBtnClick; FilterSearchInput "nor"]
                 {| ui := upd_loading false
                            (upd_countries cs (upd_data (λ _, [r]) initialState));
                    sent := [] |} in
  let evs := [FilterBtnClick; EditBtnClick r; DropdownBtnClick] in
  forallb (λ ev, negb (isSearchInput ev)) evs = true
  ∧ modalCountryOpen (ui (run host evs typed)) = true
  ∧ dropdownListCountries (ui (run host evs typed)) = [ {| Country.name := "Norway" |} ].
Proof.
  intros host r cs typed evs.
  split; [reflexivity|]. split; [vm_compute; reflexivity|].
  rewrite (proj1 (proj2 (search_text_survives host evs typed eq_refl))).
  vm_compute. reflexivity.
Defined.

(** ** Cells *)

Lemma lower_upper_ascii c :
  JsString.lower_ascii (JsString.upper_ascii c) = JsString.lower_ascii c.
Proof. by destruct c as [[] [] [] [] [] [] [] []]. Qed.

Lemma upper_lower_ascii c :
  JsString.upper_ascii (JsString.lower_ascii c) = JsString.upper_ascii c.
Proof. by destruct c as [[] [] [] [] [] [] [] []]. Qed.

Lemma toLowerCase_idemp s :
  JsString.toLowerCase (JsString.toLowerCase s) = JsString.toLowerCase s.
Proof.
  induction s as [|c s IH]; [done|]. simpl. rewrite IH. f_equal.
  by destruct c as [[] [] [] [] [] [] [] []].
Qed.

Lemma genderCell_pill r c rest :
  TaxRecord.gender r = Some (String c rest) →
  genderCell r
  = GenderPill ("gender-pill " +:+ JsString.toLowerCase (String c rest))
               (String (JsString.upper_ascii c) (JsString.toLowerCase rest)).
Proof.
  intros Hg. unfold genderCell. rewrite Hg.
  change (JsString.toUpperCase (String c "") +:+ JsString.toLowerCase rest)
    with (String (JsString.upper_ascii c) (JsString.toLowerCase rest)).
  f_equal. f_equal.
  change (String (JsString.lower_ascii (JsString.upper_ascii c))
            (JsString.toLowerCase (JsString.toLowerCase rest))
          = String (JsString.lower_ascii c) (JsString.toLowerCase rest)).
  by rewrite lower_upper_ascii, toLowerCase_idemp.
Qed.

(** X18.  The Gender cell normalises case.  For a non-empty gender of
    ASCII characters the pill's text is the gender with its first character
    uppercased and the rest lowercased, and the pill's class is
    "gender-pill " followed by the lowercased gender; so two genders that
    differ only in case give the same cell.  An absent or empty gender gives
    the dash. *)
Theorem genderCell_ignores_case r g :
  TaxRecord.gender r = Some g →
  g ≠ "" →
  JsString.isAscii g = true →
  (∃ c rest text,
      g = String c rest
      ∧ text = String (JsString.upper_ascii c) (JsString.toLowerCase rest)
      ∧ genderCell r = GenderPill ("gender-pill " +:+ JsString.toLowerCase g) text
      ∧ JsString.toLowerCase text = JsString.toLowerCase g)
  ∧ (∀ r' g', TaxRecord.gender r' = Some g' →
              JsString.isAscii g' = true →
              JsString.toLowerCase g' = JsString.toLowerCase g →
              genderCell r' = genderCell r)
  ∧ (∀ r', TaxRecord.gender r' = None ∨ TaxRecord.gender r' = Some "" →
           genderCell r' = GenderDash).
Proof.
  intros Hg Hne _. destruct g as [|c rest]; [done|].
  split; [|split].
  - exists c, rest, (String (JsString.upper_ascii c) (JsString.toLowerCase rest)).
    split; [done|]. split; [done|]. split; [by apply genderCell_pill|].
    simpl. by rewrite lower_upper_ascii, toLowerCase_idemp.
  - intros r' g' Hg' _ Hsame. destruct g' as [|c' rest']; [done|].
    rewrite (genderCell_pill r c rest Hg), (genderCell_pill r' c' rest' Hg'), Hsame.
    simpl in Hsame. injection Hsame as Hc Hrest.
    by rewrite Hrest, <- (upper_lower_ascii c'), <- (upper_lower_ascii c), Hc.
  - intros r' [Hn | Hn]; unfold genderCell; by rewrite Hn.
Qed.

Lemma genderCell_ignores_case_witness :
  let r := {| TaxRecord.id := "1"; TaxRecord.name := Some "Asha";
              TaxRecord.gender := Some "feMALE"; TaxRecord.country := None;
              TaxRecord.requestDate := Some ""; TaxRecord.createdAt := None |} in
  TaxRecord.gender r = Some "feMALE"
  ∧ JsString.isAscii "feMALE" = true
  ∧ genderCell (TaxRecord.with_gender (Some "FEMALE") r) = genderCell r
  ∧ genderCell r = GenderPill "gender-pill female" "Female".
Proof.
  intros r.
  assert (Hne : "feMALE" ≠ "") by discriminate.
  destruct (genderCell_ignores_case r "feMALE" eq_refl Hne eq_refl) as (_ & Hsame & _).
  split; [reflexivity|]. split; [reflexivity|]. split; [|reflexivity].
  apply (Hsame _ "FEMALE"); reflexivity.
Defined.

Lemma toLocaleDateString_nonempty host t : JsDate.toLocaleDateString host t ≠ "".
Proof.
  unfold JsDate.toLocaleDateString.
  destruct (JsDate.civilFromDays _) as [[y m] d].
  unfold JsDate.monthShort. by repeat case_match.
Qed.

Lemma formatDate_nonempty host c s : formatDate host (Some (String c s)) ≠ "".
Proof.
  unfold formatDate. destruct (JsDate.parse host (String c s)); [|done].
  apply toLocaleDateString_nonempty.
Qed.

(** X19.  What the Request date cell of a loaded record shows.  An entry
    with a non-empty [requestDate] shows that date formatted; an entry
    without a [requestDate] shows its [createdAt] formatted, or the dash
    when that is absent or empty; but an entry whose [requestDate] is the
    empty string shows the dash even when it has a [createdAt].  The cell
    is never empty. *)
Theorem date_cell_of_loaded host cs raw w (i : nat) t :
  raw !! (length raw - 7 + i)%nat = Some t →
  ∃ R, data (ui (mountEffect host (answered cs) (answered raw) w)) !! i = Some R
       ∧ requestDateCell R
         = match TaxRecord.requestDate t with
           | Some "" => "-"
           | Some d => formatDate host (Some d)
           | None =>
               match TaxRecord.createdAt t with
               | None | Some "" => "-"
               | Some d => formatDate host (Some d)
               end
           end
       ∧ requestDateCell R ≠ "".
Proof.
  intros Ht. eexists. split; [by rewrite loaded_lookup, Ht|].
  assert (Hcell : ∀ c s,
            JsString.or_else (Some (formatDate host (Some (String c s)))) "-"
            = formatDate host (Some (String c s))
            ∧ JsString.or_else (Some (formatDate host (Some (String c s)))) "-" ≠ "").
  { intros c s. pose proof (formatDate_nonempty host c s) as Hne.
    by destruct (formatDate host (Some (String c s))). }
  unfold requestDateCell.
  destruct (TaxRecord.requestDate t) as [[|c s]|]; [done|apply Hcell|].
  destruct (TaxRecord.createdAt t) as [[|c s]|]; [done|apply Hcell|done].
Qed.

Lemma date_cell_of_loaded_witness :
  let host := JsDate.fixedOffset 0 in
  let t := {| TaxRecord.id := "8"; TaxRecord.name := Some "Kofi";
              TaxRecord.gender := None; TaxRecord.country := None;
              TaxRecord.requestDate := Some "";
              TaxRecord.createdAt := Some "2023-11-02T00:00:00Z" |} in
  [t] !! (length [t] - 7 + 0)%nat = Some t
  ∧ ∃ R, data (ui (mountEffect host (answered []) (answered [t]) initialWorld)) !! 0%nat
         = Some R
         ∧ requestDateCell R = "-".
Proof.
  intros host t. split; [reflexivity|].
  destruct (date_cell_of_loaded host [] [t] initialWorld 0 t eq_refl)
    as (R & HR & Hcell & _).
  exists R. split; [exact HR|exact Hcell].
Defined.

(** ** Which records are saved *)

Lemma dispatch_keeps_editing_known host ev w :
  (∀ R, editing (ui w) = Some R → TaxRecord.id R ∈ TaxRecord.id <$> data (ui w)) →
  ∀ R, editing (ui (dispatch host ev w)) = Some R →
       TaxRecord.id R ∈ TaxRecord.id <$> data (ui (dispatch host ev w)).
Proof.
  intros Hinv R. rewrite dispatch_keeps_ids.
  unfold dispatch. destruct (available ev (ui w)) eqn:Hav; [|apply Hinv].
  destruct ev; try apply Hinv; try done.
  - simpl. intros [= <-]. simpl in Hav.
    apply andb_true_iff in Hav as [_ Hrow]. apply bool_decide_eq_true in Hrow.
    rewrite filteredData_eq in Hrow. apply list_elem_of_filter in Hrow as [_ Hrow].
    by apply list_elem_of_fmap_2.
  - simpl. unfold handleSave, mbind, act_bind, getState.
    destruct (editing (ui w)) as [R0|] eqn:He; [|simpl; congruence].
    destruct net as [[[updated|]]|]; simpl; try done.
    + intros HR. apply Hinv. congruence.
    + intros HR. apply Hinv. congruence.
Qed.

Lemma dispatch_sends_known host ev w :
  (∀ R, editing (ui w) = Some R → TaxRecord.id R ∈ TaxRecord.id <$> data (ui w)) →
  ∃ puts, sent (dispatch host ev w) = sent w ++ puts
          ∧ Forall (λ req, ∃ body, req = Put (TAXES_API +:+ "/" +:+ TaxRecord.id body) body
                                   ∧ TaxRecord.id body ∈ TaxRecord.id <$> data (ui w)) puts.
Proof.
  intros Hinv.
  assert (Hnone : ∃ puts, sent w = sent w ++ puts
            ∧ Forall (λ req, ∃ body, req = Put (TAXES_API +:+ "/" +:+ TaxRecord.id body) body
                                     ∧ TaxRecord.id body ∈ TaxRecord.id <$> data (ui w)) puts).
  { exists []. split; [by rewrite app_nil_r|constructor]. }
  unfold dispatch. destruct (available ev (ui w)); [|done].
  destruct ev; try done. simpl.
  unfold handleSave, mbind, act_bind, getState.
  destruct (editing (ui w)) as [R|] eqn:He; [|done].
  exists [Put (TAXES_API +:+ "/" +:+ TaxRecord.id R)
              (TaxRecord.with_name_country (Form.name (form (ui w)))
                 (Form.country (form (ui w))) R)].
  split; [by destruct net as [[[updated|]]|]|].
  constructor; [|constructor].
  exists (TaxRecord.with_name_country (Form.name (form (ui w)))
            (Form.country (form (ui w))) R).
  split; [reflexivity|]. simpl. by apply Hinv.
Qed.

(** X20.  The component only ever saves records it holds.  Starting from
    a state whose modal, if open, is on a record whose id is in the list --
    in particular from any state with the modal closed -- every PUT sent in
    the course of any sequence of events goes to the address of an id of the
    list, with a body of that id. *)
Theorem puts_target_held_ids host evs w :
  (∀ R, editing (ui w) = Some R → TaxRecord.id R ∈ TaxRecord.id <$> data (ui w)) →
  ∃ puts, sent (run host evs w) = sent w ++ puts
          ∧ Forall (λ req, ∃ body, req = Put (TAXES_API +:+ "/" +:+ TaxRecord.id body) body
                                   ∧ TaxRecord.id body ∈ TaxRecord.id <$> data (ui w)) puts.
Proof.
  revert w. induction evs as [|ev evs IH]; intros w Hinv.
  - exists []. split; [by rewrite app_nil_r|constructor].
  - simpl.
    destruct (IH (dispatch host ev w) (dispatch_keeps_editing_known host ev w Hinv))
      as (puts2 & Hs2 & Hp2).
    destruct (dispatch_sends_known host ev w Hinv) as (puts1 & Hs1 & Hp1).
    exists (puts1 ++ puts2). split; [by rewrite Hs2, Hs1, app_assoc|].
    apply Forall_app. split; [done|].
    eapply Forall_impl; [exact Hp2|]. intros req (body & -> & Hid).
    exists body. split; [done|]. by rewrite dispatch_keeps_ids in Hid.
Qed.

Lemma puts_target_held_ids_witness :
  let host := JsDate.fixedOffset 0 in
  let r := {| TaxRecord.id := "6"; TaxRecord.name := Some "Tomas";
              TaxRecord.gender := None; TaxRecord.country := Some "Chile";
              TaxRecord.requestDate := Some ""; TaxRecord.createdAt := None |} in
  let w := {| ui := upd_loading false (upd_data (λ _, [r]) initialState); sent := [] |} in
  let evs := [EditBtnClick r; NameInput "Tomas B"; SaveBtnClick Rejected] in
  editing (ui w) = None
  ∧ ∃ puts, sent (run host evs w) = sent w ++ puts
            ∧ Forall (λ req, ∃ body,
                        req = Put (TAXES_API +:+ "/" +:+ TaxRecord.id body) body
                        ∧ TaxRecord.id body ∈ TaxRecord.id <$> data (ui w)) puts.
Proof.
  intros host r w evs. split; [reflexivity|].
  apply (puts_target_held_ids host evs w). intros R HR. discriminate HR.
Defined.

(** ** Flags *)

Lemma dispatch_keeps_loading host ev w :
  loading (ui (dispatch host ev w)) = loading (ui w).
Proof.
  unfold dispatch. destruct (available ev (ui w)); [|done].
  destruct ev; try done.
  by destruct (handleSave_footprint host net w) as (_ & Hl & _).
Qed.

Lemma run_keeps_loading host evs w :
  loading (ui (run host evs w)) = loading (ui w).
Proof.
  revert w. induction evs as [|ev evs IH]; intros w; [done|].
  simpl. rewrite IH. apply dispatch_keeps_loading.
Qed.

(** X21.  However the load ends -- with both answers, or with a failure at
    any step -- the loading flag is cleared, and nothing the user does
    afterwards sets it again: the table card shows the table from then
    on. *)
Theorem loading_banner_never_returns host countriesNet taxesNet w evs :
  let s := ui (run host evs (mountEffect host countriesNet taxesNet w)) in
  loading s = false ∧ tableCard s = Table (filteredData s).
Proof.
  intros s.
  assert (Hl : loading s = false).
  { unfold s. rewrite run_keeps_loading.
    destruct countriesNet as [[[cs|]]|]; [|done..].
    destruct taxesNet as [[[raw|]]|]; done. }
  split; [done|]. unfold tableCard. by rewrite Hl.
Qed.

Lemma dispatch_keeps_dropdown_closed host ev w :
  (editing (ui w) = None → modalCountryOpen (ui w) = false) →
  editing (ui (dispatch host ev w)) = None →
  modalCountryOpen (ui (dispatch host ev w)) = false.
Proof.
  intros Hinv. unfold dispatch. destruct (available ev (ui w)) eqn:Hav; [|done].
  destruct ev; try done; try exact Hinv.
  - simpl in *. apply bool_decide_eq_true in Hav as [R HR]. congruence.
  - simpl. unfold handleSave, mbind, act_bind, getState.
    destruct (editing (ui w)) as [R|] eqn:He.
    + destruct net as [[[updated|]]|]; simpl; try done; congruence.
    + simpl. intros _. by apply Hinv.
Qed.

(** X22.  The country dropdown is never left open behind a closed modal:
    from a freshly mounted component on, whenever no record is being edited
    the dropdown's open flag is false, so a modal opened from the table
    starts with its dropdown closed. *)
Theorem dropdown_closed_with_modal host countriesNet taxesNet evs row :
  let s := ui (run host evs (mountEffect host countriesNet taxesNet initialWorld)) in
  (editing s = None → modalCountryOpen s = false)
  ∧ (editing s = None →
     modalCountryOpen (ui (snd (openEdit row {| ui := s; sent := [] |}))) = false).
Proof.
  intros s.
  assert (Hinv : editing s = None → modalCountryOpen s = false).
  { unfold s.
    assert (H0 : editing (ui (mountEffect host countriesNet taxesNet initialWorld)) = None
                 → modalCountryOpen
                     (ui (mountEffect host countriesNet taxesNet initialWorld)) = false).
    { intros _. destruct countriesNet as [[[cs|]]|]; [|done..].
      destruct taxesNet as [[[raw|]]|]; done. }
    revert H0. generalize (mountEffect host countriesNet taxesNet initialWorld).
    induction evs as [|ev evs IH]; intros w0 H0; [done|].
    simpl. apply IH. by apply dispatch_keeps_dropdown_closed. }
  split; [done|]. intros He. simpl. by apply Hinv.
Qed.
